(** * Project_chatbot: the project-context store and the chat façade

    A shallow embedding of [project_management.py] (class [ProjectManager])
    and of [web_app.py] (classes [ConversationManager] and [DevAssistant]),
    with the properties of the specification stated over it.

    Python values that travel through [json.load] / [json.dump] are the
    inductive [value]; an exception is a value of [exn] and a call that may
    raise returns a [result].  Strings are Rocq strings, read as sequences
    of code points below 256. *)

From Stdlib Require Import ZArith List String Ascii Bool Lia DecimalString.
Import ListNotations.
Local Open Scope string_scope.
Local Open Scope Z_scope.
#[local] Set Warnings "-register-all".

(* ================================================================== *)
(** ** Exceptions and results *)

Inductive exn_kind :=
  | JSONDecodeError | KeyError | TypeError | ValueError | AttributeError
  | IndexError | OverflowError | OSError | APIError.

(** [Exn k msg]: an exception of class [k] whose [str(e)] is [msg]. *)
Inductive exn := Exn (kind : exn_kind) (msg : string).

Definition exn_str (e : exn) : string := let 'Exn _ m := e in m.

Inductive result (A : Type) :=
  | Ok (a : A)
  | Raise (e : exn).
Arguments Ok {A} a.
Arguments Raise {A} e.

Definition bind {A B} (c : result A) (k : A -> result B) : result B :=
  match c with
  | Ok a => k a
  | Raise e => Raise e
  end.

Declare Scope py_scope.
Delimit Scope py_scope with py.
Notation "x <- c ;; k" := (bind c (fun x => k))
  (at level 61, c at next level, right associativity) : py_scope.
Local Open Scope py_scope.

(* ================================================================== *)
(** ** Strings: the part of [str] the program uses *)

Definition nl : string := String (ascii_of_nat 10) EmptyString.
Definition dquote : ascii := ascii_of_nat 34.
Definition squote : ascii := ascii_of_nat 39.
Definition backslash : ascii := ascii_of_nat 92.

Definition chr (c : ascii) : string := String c EmptyString.

(** [str.startswith] and [str.endswith]. *)
Definition startswith (s p : string) : bool := String.prefix p s.

Definition endswith (s p : string) : bool :=
  let n := String.length s in
  let m := String.length p in
  (m <=? n)%nat && String.eqb (String.substring (n - m) m s) p.

(** [needle in haystack] on strings. *)
Fixpoint is_substring (needle haystack : string) : bool :=
  String.prefix needle haystack ||
  match haystack with
  | EmptyString => false
  | String _ rest => is_substring needle rest
  end.

(** [s[:n]] for [n >= 0]. *)
Definition take (n : nat) (s : string) : string := String.substring 0 n s.

(** [sep.join(parts)]. *)
Fixpoint join (sep : string) (parts : list string) : string :=
  match parts with
  | [] => EmptyString
  | [p] => p
  | p :: rest => p ++ sep ++ join sep rest
  end.

(** [str.lower] on code points below 256: A-Z, and the Latin-1 capitals
    U+00C0..U+00DE other than the multiplication sign U+00D7. *)
Definition lower_char (c : ascii) : ascii :=
  let n := nat_of_ascii c in
  if ((65 <=? n) && (n <=? 90) ||
      (192 <=? n) && (n <=? 222) && negb (n =? 215))%nat
  then ascii_of_nat (n + 32) else c.

Fixpoint lower (s : string) : string :=
  match s with
  | EmptyString => EmptyString
  | String c rest => String (lower_char c) (lower rest)
  end.

Definition hex_digit (n : nat) : ascii :=
  ascii_of_nat (if (n <? 10)%nat then 48 + n else 87 + n).

Definition hex2 (n : nat) : string :=
  String (hex_digit (n / 16)) (String (hex_digit (n mod 16)) EmptyString).

(** [str.isprintable] for one code point of U+0080..U+00FF: everything but
    the C1 controls, the no-break space and the soft hyphen. *)
Definition printable_latin1 (n : nat) : bool :=
  ((161 <=? n) && negb (n =? 173))%nat.

(** One character of [repr(str)], [quote] being the delimiter chosen. *)
Definition repr_char (quote c : ascii) : string :=
  let n := nat_of_ascii c in
  if Ascii.eqb c quote || Ascii.eqb c backslash then String backslash (chr c)
  else if (n =? 9)%nat then String backslash "t"
  else if (n =? 10)%nat then String backslash "n"
  else if (n =? 13)%nat then String backslash "r"
  else if ((n <? 32) || (n =? 127))%nat then String backslash ("x" ++ hex2 n)
  else if (n <? 127)%nat then chr c
  else if printable_latin1 n then chr c
  else String backslash ("x" ++ hex2 n).

Fixpoint repr_chars (quote : ascii) (s : string) : string :=
  match s with
  | EmptyString => EmptyString
  | String c rest => repr_char quote c ++ repr_chars quote rest
  end.

Fixpoint has_char (c : ascii) (s : string) : bool :=
  match s with
  | EmptyString => false
  | String d rest => Ascii.eqb c d || has_char c rest
  end.

(** The delimiter of [repr(s)]: a double quote exactly when [s] holds a
    single quote and no double quote. *)
Definition repr_quote (s : string) : ascii :=
  if has_char squote s && negb (has_char dquote s) then dquote else squote.

Definition repr_str (s : string) : string :=
  let q := repr_quote s in
  String q (repr_chars q s ++ chr q).

(** A word that [repr] leaves as it is, under either delimiter. *)
Definition plain (word : string) : Prop :=
  repr_chars squote word = word /\ repr_chars dquote word = word.

(** [str(n)] for an [int]. *)
Definition str_int (n : Z) : string := NilZero.string_of_int (Z.to_int n).

(* ================================================================== *)
(** ** JSON-shaped Python values *)

(** What [json.load] returns.  A [float] is kept as the text [repr] prints
    for it: the program only ever prints numbers.  A [dict] keeps its
    entries in insertion order, as Python's does. *)
Inductive value :=
  | VNone
  | VBool (b : bool)
  | VInt (n : Z)
  | VFloat (text : string)
  | VStr (s : string)
  | VList (items : list value)
  | VDict (entries : list (string * value)).

Definition type_name (v : value) : string :=
  match v with
  | VNone => "NoneType"
  | VBool _ => "bool"
  | VInt _ => "int"
  | VFloat _ => "float"
  | VStr _ => "str"
  | VList _ => "list"
  | VDict _ => "dict"
  end.

(** [repr(v)]. *)
Fixpoint repr (v : value) : string :=
  match v with
  | VNone => "None"
  | VBool true => "True"
  | VBool false => "False"
  | VInt n => str_int n
  | VFloat text => text
  | VStr s => repr_str s
  | VList items => "[" ++ join ", " (map repr items) ++ "]"
  | VDict entries =>
      "{" ++ join ", " (map (fun kv => repr_str (fst kv) ++ ": " ++ repr (snd kv))
                            entries) ++ "}"
  end.

(** [str(v)], also what an f-string prints for [{v}]. *)
Definition str (v : value) : string :=
  match v with
  | VStr s => s
  | _ => repr v
  end.

Fixpoint assoc (k : string) (entries : list (string * value)) : option value :=
  match entries with
  | [] => None
  | (k', v) :: rest => if String.eqb k k' then Some v else assoc k rest
  end.

(** [d[k] = v] on a dict: in place when the key is there, at the end
    otherwise. *)
Fixpoint assoc_set (k : string) (v : value) (entries : list (string * value))
  : list (string * value) :=
  match entries with
  | [] => [(k, v)]
  | (k', v') :: rest =>
      if String.eqb k k' then (k', v) :: rest else (k', v') :: assoc_set k v rest
  end.

(** [obj[key]] with a [str] key. *)
Definition getitem (obj : value) (key : string) : result value :=
  match obj with
  | VDict entries =>
      match assoc key entries with
      | Some v => Ok v
      | None => Raise (Exn KeyError (repr_str key))
      end
  | VList _ => Raise (Exn TypeError "list indices must be integers or slices, not str")
  | VStr _ => Raise (Exn TypeError "string indices must be integers, not 'str'")
  | _ => Raise (Exn TypeError ("'" ++ type_name obj ++ "' object is not subscriptable"))
  end.

(** [obj.get(key, default)]. *)
Definition py_get (obj : value) (key : string) (default : value) : result value :=
  match obj with
  | VDict entries =>
      Ok (match assoc key entries with Some v => v | None => default end)
  | _ => Raise (Exn AttributeError
                  ("'" ++ type_name obj ++ "' object has no attribute 'get'"))
  end.

Fixpoint all_strs (pos : nat) (items : list value) : result (list string) :=
  match items with
  | [] => Ok []
  | VStr s :: rest => tl <- all_strs (S pos) rest ;; Ok (s :: tl)
  | v :: _ =>
      Raise (Exn TypeError
               ("sequence item " ++ NilZero.string_of_uint (Nat.to_uint pos)
                ++ ": expected str instance, " ++ type_name v ++ " found"))
  end.

Fixpoint chars (s : string) : list string :=
  match s with
  | EmptyString => []
  | String c rest => chr c :: chars rest
  end.

(** [sep.join(v)]: [v] is iterated, so a [str] yields its characters and a
    [dict] its keys. *)
Definition py_join (sep : string) (v : value) : result string :=
  match v with
  | VList items => parts <- all_strs 0 items ;; Ok (join sep parts)
  | VStr s => Ok (join sep (chars s))
  | VDict entries => Ok (join sep (map fst entries))
  | _ => Raise (Exn TypeError "can only join an iterable")
  end.

(* ================================================================== *)
(** ** [datetime] *)

(** A [datetime] is its wall-clock reading in microseconds since
    0001-01-01T00:00:00 and, when it is timezone-aware, its UTC offset in
    microseconds. *)
Record datetime := { ticks : Z; utcoffset : option Z }.

Definition naive (t : Z) : datetime := {| ticks := t; utcoffset := None |}.

Definition day_us : Z := 86400 * 1000000.

(** [datetime.max] is the last microsecond of 9999-12-31, day 3652059. *)
Definition max_ticks : Z := 3652059 * day_us.

(** [a > b]. *)
Definition dt_gt (a b : datetime) : result bool :=
  match utcoffset a, utcoffset b with
  | None, None => Ok (ticks b <? ticks a)
  | Some oa, Some ob => Ok (ticks b - ob <? ticks a - oa)
  | _, _ => Raise (Exn TypeError "can't compare offset-naive and offset-aware datetimes")
  end.

(** [now - timedelta(days=days)] for the naive reading [now].  The
    constructor first converts [days] to a C [int], then checks its
    magnitude; the subtraction checks the year. *)
Definition minus_days (now days : Z) : result datetime :=
  if (days <? - 2147483648) || (2147483647 <? days)
  then Raise (Exn OverflowError "Python int too large to convert to C int")
  else if 999999999 <? Z.abs days
  then Raise (Exn OverflowError
                ("days=" ++ str_int days ++ "; must have magnitude <= 999999999"))
  else
    let t := now - days * day_us in
    if (0 <=? t) && (t <? max_ticks) then Ok (naive t)
    else Raise (Exn OverflowError "date value out of range").

(* ================================================================== *)
(** ** The record store on disk *)

(** A file is represented by what [open] followed by [json.load] gives on
    it: the decoded value, or the exception raised. *)
Definition file := result value.

(** A directory in [os.listdir] order. *)
Definition directory := list (string * file).

Record ProjectManager := {
  project_name : string;
  project_metadata_path : string;
  meetings_dir : directory;
  requirements_dir : directory;
  logs_dir : directory;
  project_metadata : option file
}.

(** [open(path, 'w')] then [json.dump]: the file is created, or replaced
    where it stands.  The write is taken to go through: a full disk or a
    refused permission, on which [open] or [json.dump] raise, is outside
    this model. *)
Fixpoint write_json (name : string) (content : value) (dir : directory) : directory :=
  match dir with
  | [] => [(name, Ok content)]
  | (name', old) :: rest =>
      if String.eqb name name' then (name', Ok content) :: rest
      else (name', old) :: write_json name content rest
  end.

Inductive level := WARNING | ERROR.
Definition log_record := (level * string)%type.

(** [logger.warning(msg)] / [logger.error(msg)]. *)
Definition emit (logs : list log_record) (lvl : level) (msg : string)
  : list log_record := app logs [(lvl, msg)].

Inductive kind := Meeting | Requirement | Milestone.

Definition id_prefix (k : kind) : string :=
  match k with
  | Meeting => "meeting_"
  | Requirement => "requirement_"
  | Milestone => "milestone_"
  end.

Definition section_of (k : kind) : string :=
  match k with
  | Meeting => "meetings"
  | Requirement => "requirements"
  | Milestone => "milestones"
  end.

Definition dir_of (k : kind) (pm : ProjectManager) : directory :=
  match k with
  | Meeting => meetings_dir pm
  | Requirement => requirements_dir pm
  | Milestone => logs_dir pm
  end.

Definition set_dir (k : kind) (d : directory) (pm : ProjectManager) : ProjectManager :=
  match k with
  | Meeting =>
      {| project_name := project_name pm;
         project_metadata_path := project_metadata_path pm;
         meetings_dir := d; requirements_dir := requirements_dir pm;
         logs_dir := logs_dir pm; project_metadata := project_metadata pm |}
  | Requirement =>
      {| project_name := project_name pm;
         project_metadata_path := project_metadata_path pm;
         meetings_dir := meetings_dir pm; requirements_dir := d;
         logs_dir := logs_dir pm; project_metadata := project_metadata pm |}
  | Milestone =>
      {| project_name := project_name pm;
         project_metadata_path := project_metadata_path pm;
         meetings_dir := meetings_dir pm; requirements_dir := requirements_dir pm;
         logs_dir := d; project_metadata := project_metadata pm |}
  end.

Definition set_metadata (m : file) (pm : ProjectManager) : ProjectManager :=
  {| project_name := project_name pm;
     project_metadata_path := project_metadata_path pm;
     meetings_dir := meetings_dir pm; requirements_dir := requirements_dir pm;
     logs_dir := logs_dir pm; project_metadata := Some m |}.

(** The kind-specific fields of a record, each with the default that
    [details.get(field, default)] falls back to. *)
Definition field_defaults (k : kind) : list (string * value) :=
  match k with
  | Meeting =>
      [("participants", VList []); ("key_discussions", VList []);
       ("action_items", VList []); ("decisions", VList []);
       ("next_steps", VList [])]
  | Requirement =>
      [("category", VStr "General"); ("changes", VList []);
       ("rationale", VStr EmptyString); ("impact", VList []);
       ("proposed_by", VStr "Unknown")]
  | Milestone =>
      [("name", VStr "Unnamed Milestone"); ("description", VStr EmptyString);
       ("status", VStr "Pending"); ("completion_date", VNone);
       ("key_achievements", VList [])]
  end.

Fixpoint get_fields (details : value) (fields : list (string * value))
  : result (list (string * value)) :=
  match fields with
  | [] => Ok []
  | (name, default) :: rest =>
      v <- py_get details name default ;;
      tl <- get_fields details rest ;;
      Ok ((name, v) :: tl)
  end.

(** What the clock and [uuid4] give during one [log_*] call: the
    [strftime] reading, [uuid4().hex], and the two [isoformat] readings
    (the record's [date], the metadata's [last_updated]). *)
Record stamp := {
  timestamp : string;
  uuid_hex : string;
  date_iso : string;
  last_updated_iso : string
}.

(** The body of [_update_project_metadata] between [json.load] and
    [json.dump]. *)
Definition updated_metadata (section new_item updated : string) (metadata : value)
  : result value :=
  match metadata with
  | VDict entries =>
      let entries :=
        match assoc section entries with
        | Some _ => entries
        | None => assoc_set section (VList []) entries
        end in
      match assoc section entries with
      | Some (VList items) =>
          Ok (VDict (assoc_set "last_updated" (VStr updated)
                       (assoc_set section (VList (items ++ [VStr new_item])) entries)))
      | Some v =>
          Raise (Exn AttributeError
                   ("'" ++ type_name v ++ "' object has no attribute 'append'"))
      | None => Raise (Exn KeyError (repr_str section))
      end
  | VList _ => Raise (Exn TypeError "list indices must be integers or slices, not str")
  | VStr s =>
      if is_substring section s
      then Raise (Exn TypeError "string indices must be integers, not 'str'")
      else Raise (Exn TypeError "'str' object does not support item assignment")
  | v => Raise (Exn TypeError
                  ("argument of type '" ++ type_name v ++ "' is not iterable"))
  end.

Definition _update_project_metadata (section new_item updated : string)
    (pm : ProjectManager) : result unit * ProjectManager :=
  match project_metadata pm with
  | None =>
      (Raise (Exn OSError ("[Errno 2] No such file or directory: "
                           ++ repr_str (project_metadata_path pm))), pm)
  | Some content =>
      match (metadata <- content ;; updated_metadata section new_item updated metadata) with
      | Ok metadata => (Ok tt, set_metadata (Ok metadata) pm)
      | Raise e => (Raise e, pm)
      end
  end.

Definition new_id (k : kind) (st : stamp) : string :=
  id_prefix k ++ timestamp st ++ "_" ++ take 8 (uuid_hex st).

(** The common shape of [log_meeting], [log_requirement_change] and
    [log_milestone]: build the record, write [<id>.json], update the
    metadata; the method ends without a [return] statement, so its value
    is [None]. *)
Definition log_record_of (k : kind) (st : stamp) (details : value)
    (pm : ProjectManager) : result value * ProjectManager :=
  let record_id := new_id k st in
  match get_fields details (field_defaults k) with
  | Raise e => (Raise e, pm)
  | Ok fields =>
      let record :=
        VDict (("id", VStr record_id) :: ("timestamp", VStr (timestamp st))
               :: ("date", VStr (date_iso st)) :: fields) in
      let pm := set_dir k (write_json (record_id ++ ".json") record (dir_of k pm)) pm in
      match _update_project_metadata (section_of k) record_id (last_updated_iso st) pm with
      | (Ok _, pm) => (Ok VNone, pm)
      | (Raise e, pm) => (Raise e, pm)
      end
  end.

Definition log_meeting := log_record_of Meeting.
Definition log_requirement_change := log_record_of Requirement.
Definition log_milestone := log_record_of Milestone.

(** The [summary] dict of [generate_project_summary]. *)
Record Summary := {
  summary_project_name : string;
  summary_period : string;
  meetings : list value;
  requirement_changes : list value;
  milestones : list value
}.

Definition records_of (k : kind) (s : Summary) : list value :=
  match k with
  | Meeting => meetings s
  | Requirement => requirement_changes s
  | Milestone => milestones s
  end.

(** Which file names of a category directory the scan opens. *)
Definition scanned (k : kind) (filename : string) : bool :=
  match k with
  | Meeting | Requirement => endswith filename ".json"
  | Milestone => startswith filename "milestone_" && endswith filename ".json"
  end.

(** The order of the three loops of [generate_project_summary]: meetings,
    then requirement changes, then milestones. *)
Definition scanned_before (k' k : kind) : bool :=
  match k', k with
  | Meeting, Requirement | Meeting, Milestone | Requirement, Milestone => true
  | _, _ => false
  end.

(** The key of each category in the dicts the summary functions return. *)
Definition summary_key (k : kind) : string :=
  match k with
  | Meeting => "meetings"
  | Requirement => "requirement_changes"
  | Milestone => "milestones"
  end.

(** [d[key]] on a dict of record lists. *)
Fixpoint lookup {A} (key : string) (d : list (string * A)) : option A :=
  match d with
  | [] => None
  | (k, v) :: rest => if String.eqb key k then Some v else lookup key rest
  end.

Section Runtime.

(** [datetime.fromisoformat] on a [str]; its grammar depends on the Python
    version, so it is left open. *)
Variable fromisoformat : string -> result datetime.

Definition parse_date (v : value) : result datetime :=
  match v with
  | VStr s => fromisoformat s
  | _ => Raise (Exn TypeError "fromisoformat: argument must be str")
  end.

(** [datetime.fromisoformat(record['date'])]. *)
Definition record_date (record : value) : result datetime :=
  d <- getitem record "date" ;; parse_date d.

(** One [for filename in os.listdir(...)] loop; [acc] is the list the loop
    appends to. *)
Fixpoint collect (keep : string -> bool) (cutoff_date : datetime)
    (dir : directory) (acc : list value) : result (list value) :=
  match dir with
  | [] => Ok acc
  | (filename, content) :: rest =>
      if keep filename then
        record <- content ;;
        date <- record_date record ;;
        recent <- dt_gt date cutoff_date ;;
        collect keep cutoff_date rest (if recent then acc ++ [record] else acc)
      else collect keep cutoff_date rest acc
  end.

Definition generate_project_summary (pm : ProjectManager) (now days : Z)
  : result Summary :=
  cutoff_date <- minus_days now days ;;
  ms <- collect (scanned Meeting) cutoff_date (meetings_dir pm) [] ;;
  rs <- collect (scanned Requirement) cutoff_date (requirements_dir pm) [] ;;
  ls <- collect (scanned Milestone) cutoff_date (logs_dir pm) [] ;;
  Ok {| summary_project_name := project_name pm;
        summary_period := "Last " ++ str_int days ++ " days";
        meetings := ms; requirement_changes := rs; milestones := ls |}.

Definition meeting_line (meeting : value) : result string :=
  date <- py_get meeting "date" (VStr "Unknown Date") ;;
  topics <- py_get meeting "key_discussions" (VList []) ;;
  joined <- py_join ", " topics ;;
  Ok ("- " ++ str date ++ ": " ++ joined ++ nl).

Definition req_change_line (req_change : value) : result string :=
  date <- py_get req_change "date" (VStr "Unknown Date") ;;
  changes <- py_get req_change "changes" (VList []) ;;
  joined <- py_join ", " changes ;;
  Ok ("- " ++ str date ++ ": " ++ joined ++ nl).

Definition milestone_line (milestone : value) : result string :=
  name <- py_get milestone "name" (VStr "Unnamed Milestone") ;;
  status <- py_get milestone "status" (VStr "No status") ;;
  Ok ("- " ++ str name ++ ": " ++ str status ++ nl).

(** [for item in items: context += line(item)]. *)
Fixpoint add_lines (line : value -> result string) (items : list value)
    (context : string) : result string :=
  match items with
  | [] => Ok context
  | item :: rest => l <- line item ;; add_lines line rest (context ++ l)
  end.

(** The [try] body of [get_recent_context] after the summary is there. *)
Definition format_context (summary : Summary) (days : Z) : result string :=
  let context := "Recent Project Context (Last " ++ str_int days ++ " days):"
                 ++ nl ++ nl in
  let context := context ++ "Meetings:" ++ nl in
  context <- add_lines meeting_line (meetings summary) context ;;
  let context := context ++ nl ++ "Requirement Changes:" ++ nl in
  context <- add_lines req_change_line (requirement_changes summary) context ;;
  let context := context ++ nl ++ "Milestones:" ++ nl in
  add_lines milestone_line (milestones summary) context.

(** [get_recent_context(days=days)]: the text returned and what it sends
    to the logger.  The [category] argument is never read. *)
Definition get_recent_context (pm : ProjectManager) (now days : Z)
  : string * list log_record :=
  match (summary <- generate_project_summary pm now days ;;
         format_context summary days) with
  | Ok context => (context, [])
  | Raise e =>
      ("Unable to generate project context. Error: " ++ exn_str e,
       [(ERROR, "Error generating recent context: " ++ exn_str e)])
  end.

Definition matches_category (category : string) (record : value) : bool :=
  is_substring (lower category) (lower (str record)).

(** [get_category_summary(category)]: the dict returned ([{}] after an
    exception) and what it sends to the logger. *)
Definition get_category_summary (pm : ProjectManager) (now : Z) (category : string)
  : list (string * list value) * list log_record :=
  match generate_project_summary pm now 30 with
  | Ok summary =>
      ([("meetings", filter (matches_category category) (meetings summary));
        ("requirement_changes",
         filter (matches_category category) (requirement_changes summary));
        ("milestones", filter (matches_category category) (milestones summary))],
       [])
  | Raise e => ([], [(ERROR, "Error retrieving category summary: " ++ exn_str e)])
  end.

End Runtime.

(** *** The category filter in the words of its specification

    "[category] occurs in the text of the record as a case-insensitive
    substring", written without [lower] and without [is_substring]: some
    stretch of the text is [category] letter for letter, where a capital
    (A-Z, or a Latin-1 capital) and its small letter, 32 code points
    later, count as the same letter. *)
Definition is_capital (n : nat) : bool :=
  ((65 <=? n) && (n <=? 90) || (192 <=? n) && (n <=? 222) && negb (n =? 215))%nat.

Definition same_letter (a b : ascii) : Prop :=
  a = b \/
  (is_capital (nat_of_ascii a) = true /\ nat_of_ascii b = (nat_of_ascii a + 32)%nat) \/
  (is_capital (nat_of_ascii b) = true /\ nat_of_ascii a = (nat_of_ascii b + 32)%nat).

Inductive same_text : string -> string -> Prop :=
| same_text_empty : same_text EmptyString EmptyString
| same_text_letter a b s t :
    same_letter a b -> same_text s t -> same_text (String a s) (String b t).

Definition occurs_ignoring_case (word text : string) : Prop :=
  exists before stretch after,
    text = before ++ stretch ++ after /\ same_text stretch word.

(* ================================================================== *)
(** ** [web_app.py]: the conversation buffer *)

(** One entry of [ConversationManager.history], the dict
    [{"role": role, "content": content}]. *)
Record turn := { role : string; content : string }.

Record ConversationManager := {
  history : list turn;
  max_history_length : Z
}.

(** [ConversationManager(max_history_length=20)]. *)
Definition new_conversation_manager (max_history_length : Z) : ConversationManager :=
  {| history := []; max_history_length := max_history_length |}.

Definition default_max_history_length : Z := 20.

(** [list.pop(0)]. *)
Definition pop0 (l : list turn) : result (list turn) :=
  match l with
  | [] => Raise (Exn IndexError "pop from empty list")
  | _ :: rest => Ok rest
  end.

Definition add_message (cm : ConversationManager) (role content : string)
  : result ConversationManager :=
  h <- (if max_history_length cm <=? Z.of_nat (List.length (history cm))
        then pop0 (history cm) else Ok (history cm)) ;;
  Ok {| history := h ++ [{| role := role; content := content |}];
        max_history_length := max_history_length cm |}.

Definition get_context_messages (cm : ConversationManager) : list turn :=
  map (fun msg => {| role := role msg; content := content msg |}) (history cm).

Definition reset (cm : ConversationManager) : ConversationManager :=
  {| history := []; max_history_length := max_history_length cm |}.

(** Appending a sequence of turns, one [add_message] each. *)
Fixpoint add_messages (cm : ConversationManager) (turns : list turn)
  : result ConversationManager :=
  match turns with
  | [] => Ok cm
  | t :: rest => cm' <- add_message cm (role t) (content t) ;; add_messages cm' rest
  end.

(* ================================================================== *)
(** ** [web_app.py]: the assistant *)

(** A block of [response.content]; only a text block has [.text]. *)
Inductive content_block :=
  | TextBlock (text : string)
  | ToolUseBlock.

(** [response.content[0].text]. *)
Definition first_text (response_content : list content_block) : result string :=
  match response_content with
  | [] => Raise (Exn IndexError "list index out of range")
  | TextBlock text :: _ => Ok text
  | ToolUseBlock :: _ =>
      Raise (Exn AttributeError "'ToolUseBlock' object has no attribute 'text'")
  end.

Definition system_prompt (project_context : string) : string :=
  "You are an expert AI assistant helping with the Confidant project.

Project Context:
" ++ project_context ++ "

Your responsibilities:
- Provide clear, concise, and actionable advice
- Use markdown for code formatting
- Help with project development, design, and strategy
- Break down complex topics into easy-to-understand explanations
- Maintain and build upon the project's context and progress
- Offer strategic insights based on the project's current state".

(** The module-level objects of [web_app.py] that [DevAssistant.run]
    touches, and the records sent to the logger. *)
Record world := {
  confidant_project : ProjectManager;
  conversation_manager : ConversationManager;
  logged : list log_record
}.

Definition error_reply (e : exn) : string :=
  "An error occurred while processing your request. Please try again. Error details: "
  ++ exn_str e.

(** The details [run] passes to [log_meeting]. *)
Definition session_details (query ai_response : string) : value :=
  VDict [("participants", VList [VStr "User"; VStr "AI Assistant"]);
         ("key_discussions", VList [VStr query]);
         ("action_items", VList [VStr (take 200 ai_response ++ "...")])].

Section Assistant.

Variable fromisoformat : string -> result datetime.

(** [self.client.messages.create(...)]: the provider, as a function of the
    system prompt and the messages (model, token limit and temperature are
    constants of the call). *)
Variable messages_create : string -> list turn -> result (list content_block).

(** The provider call of [run] and the reading of its reply. *)
Definition ask_provider (project_context : string) (messages : list turn)
  : result string :=
  response <- messages_create (system_prompt project_context) messages ;;
  first_text response.

(** The outer [except Exception as e] of [DevAssistant.run]. *)
Definition run_failed (e : exn) (pm : ProjectManager) (cm : ConversationManager)
    (logs : list log_record) : string * world :=
  (error_reply e,
   {| confidant_project := pm; conversation_manager := cm;
      logged := emit logs ERROR ("Error in agent interaction: " ++ exn_str e) |}).

(** [DevAssistant.run(query)].  [now] is the clock reading of the context
    scan, [st] what the clock and [uuid4] give to [log_meeting].
    [get_recent_context] returns on every path, so the inner handler with
    the default project context is never entered. *)
Definition run (now : Z) (st : stamp) (query : string) (w : world) : string * world :=
  let pm := confidant_project w in
  let '(project_context, context_logs) := get_recent_context fromisoformat pm now 30 in
  let logs := app (logged w) context_logs in
  match add_message (conversation_manager w) "user" query with
  | Raise e => run_failed e pm (conversation_manager w) logs
  | Ok cm =>
      let messages := get_context_messages cm in
      match ask_provider project_context messages with
      | Raise e => run_failed e pm cm logs
      | Ok ai_response =>
          match add_message cm "assistant" ai_response with
          | Raise e => run_failed e pm cm logs
          | Ok cm =>
              let '(outcome, pm) :=
                log_meeting st (session_details query ai_response) pm in
              let logs :=
                match outcome with
                | Ok _ => logs
                | Raise log_error =>
                    emit logs WARNING ("Could not log meeting: " ++ exn_str log_error)
                end in
              (ai_response,
               {| confidant_project := pm; conversation_manager := cm; logged := logs |})
          end
      end
  end.

End Assistant.

(* ================================================================== *)
(** ** A reader for the dates the store writes *)

Definition digit (c : ascii) : option Z :=
  let n := nat_of_ascii c in
  if ((48 <=? n) && (n <=? 57))%nat then Some (Z.of_nat (n - 48)) else None.

Fixpoint number (s : string) (acc : Z) : option Z :=
  match s with
  | EmptyString => Some acc
  | String c rest =>
      match digit c with
      | Some d => number rest (10 * acc + d)
      | None => None
      end
  end.

Definition is_leap (y : Z) : bool :=
  (y mod 4 =? 0) && (negb (y mod 100 =? 0) || (y mod 400 =? 0)).

Definition days_in_month (y m : Z) : Z :=
  if m =? 2 then (if is_leap y then 29 else 28)
  else if (m =? 4) || (m =? 6) || (m =? 9) || (m =? 11) then 30 else 31.

Definition days_before_year (y : Z) : Z :=
  (y - 1) * 365 + (y - 1) / 4 - (y - 1) / 100 + (y - 1) / 400.

Fixpoint days_before_month (y : Z) (m : nat) : Z :=
  match m with
  | O => 0
  | S O => 0
  | S m' => days_before_month y m' + days_in_month y (Z.of_nat m')
  end.

Definition invalid_isoformat (s : string) : exn :=
  Exn ValueError ("Invalid isoformat string: " ++ repr_str s).

(** [datetime.fromisoformat] on the shape [datetime.isoformat()] writes
    for a naive datetime, [YYYY-MM-DDTHH:MM:SS] with an optional
    [.ffffff]; any other text is refused. *)
Definition fromisoformat_written (s : string) : result datetime :=
  let part i n := number (String.substring i n s) 0 in
  let sep i c := String.eqb (String.substring i 1 s) c in
  let n := String.length s in
  if negb (((n =? 19) || (n =? 26))%nat && sep 4%nat "-" && sep 7%nat "-"
           && sep 10%nat "T" && sep 13%nat ":" && sep 16%nat ":"
           && ((n =? 19)%nat || sep 19%nat "."))
  then Raise (invalid_isoformat s)
  else
    match part 0%nat 4%nat, part 5%nat 2%nat, part 8%nat 2%nat,
          part 11%nat 2%nat, part 14%nat 2%nat, part 17%nat 2%nat,
          part 20%nat 6%nat with
    | Some y, Some m, Some d, Some hh, Some mm, Some ss, Some us =>
        if (1 <=? y) && (1 <=? m) && (m <=? 12) && (1 <=? d)
           && (d <=? days_in_month y m) && (hh <? 24) && (mm <? 60) && (ss <? 60)
        then
          let ordinal := days_before_year y + days_before_month y (Z.to_nat m) + d in
          Ok (naive ((((ordinal - 1) * 24 + hh) * 60 + mm) * 60 * 1000000
                     + ss * 1000000 + us))
        else Raise (invalid_isoformat s)
    | _, _, _, _, _, _, _ => Raise (invalid_isoformat s)
    end.

(* ================================================================== *)
(** ** A sample store *)

Definition sample_meeting (id date : string) (topics : list value) : value :=
  VDict [("id", VStr id); ("timestamp", VStr "20240220_100000"); ("date", VStr date);
         ("participants", VList [VStr "Project Lead"; VStr "Developer"]);
         ("key_discussions", VList topics); ("action_items", VList []);
         ("decisions", VList []); ("next_steps", VList [])].

Definition recent_meeting : value :=
  sample_meeting "meeting_20240220_100000_ab12cd34" "2024-02-20T10:00:00.250000"
    [VStr "Memory storage architecture"; VStr "Privacy requirements"].

(** Dated exactly thirty days before [sample_now]. *)
Definition boundary_meeting : value :=
  sample_meeting "meeting_20240131_120000_0f0f0f0f" "2024-01-31T12:00:00"
    [VStr "Kick-off"].

Definition old_meeting : value :=
  sample_meeting "meeting_20231105_090000_77aa77aa" "2023-11-05T09:00:00"
    [VStr "Local encryption of the archive"].

Definition encryption_requirement : value :=
  VDict [("id", VStr "requirement_20240225_080000_c0ffee00");
         ("timestamp", VStr "20240225_080000");
         ("date", VStr "2024-02-25T08:00:00.000001");
         ("category", VStr "Technical Requirements");
         ("changes", VList [VStr "Added offline functionality specification"]);
         ("rationale", VStr "Use end-to-end encryption for stored memories");
         ("impact", VList []); ("proposed_by", VStr "Unknown")].

Definition offline_requirement : value :=
  VDict [("id", VStr "requirement_20240226_080000_c0ffee01");
         ("timestamp", VStr "20240226_080000");
         ("date", VStr "2024-02-26T08:00:00");
         ("category", VStr "General");
         ("changes", VList [VStr "Offline mode"]);
         ("rationale", VStr "System independence");
         ("impact", VList []); ("proposed_by", VStr "Unknown")].

Definition design_milestone : value :=
  VDict [("id", VStr "milestone_20240210_170000_deadbeef");
         ("timestamp", VStr "20240210_170000");
         ("date", VStr "2024-02-10T17:00:00");
         ("name", VStr "Initial Architecture Design");
         ("description", VStr "Complete high-level system design");
         ("status", VStr "Completed"); ("completion_date", VNone);
         ("key_achievements", VList [])].

Definition sample_metadata : value :=
  VDict [("project_name", VStr "Confidant");
         ("created_at", VStr "2023-11-05T08:59:00");
         ("last_updated", VStr "2024-02-26T08:00:00");
         ("status", VStr "Active");
         ("milestones", VList [VStr "milestone_20240210_170000_deadbeef"]);
         ("key_objectives", VList [])].

Definition sample_pm : ProjectManager :=
  {| project_name := "Confidant";
     project_metadata_path := ".project_management/project_metadata.json";
     meetings_dir :=
       [("meeting_20240220_100000_ab12cd34.json", Ok recent_meeting);
        ("meeting_20240131_120000_0f0f0f0f.json", Ok boundary_meeting);
        ("meeting_20231105_090000_77aa77aa.json", Ok old_meeting)];
     requirements_dir :=
       [("requirement_20240225_080000_c0ffee00.json", Ok encryption_requirement);
        ("requirement_20240226_080000_c0ffee01.json", Ok offline_requirement)];
     logs_dir :=
       [("milestone_20240210_170000_deadbeef.json", Ok design_milestone)];
     project_metadata := Some (Ok sample_metadata) |}.

(** 2024-03-01T12:00:00. *)
Definition sample_now : Z := 63844891200000000.

(** What a thirty-day scan of [sample_pm] at [sample_now] returns. *)
Definition sample_summary : Summary :=
  {| summary_project_name := "Confidant";
     summary_period := "Last 30 days";
     meetings := [recent_meeting];
     requirement_changes := [encryption_requirement; offline_requirement];
     milestones := [design_milestone] |}.

Definition json_error : exn :=
  Exn JSONDecodeError "Expecting value: line 1 column 1 (char 0)".

(** [sample_pm] with one more meeting file, which does not hold JSON. *)
Definition corrupt_pm : ProjectManager :=
  set_dir Meeting
    [("meeting_20240220_100000_ab12cd34.json", Ok recent_meeting);
     ("meeting_20240221_100000_baadf00d.json", Raise json_error);
     ("meeting_20240131_120000_0f0f0f0f.json", Ok boundary_meeting)]
    sample_pm.

(** A meeting dated seven years after [sample_now]. *)
Definition future_meeting : value :=
  sample_meeting "meeting_20310704_090000_f00dfeed" "2031-07-04T09:00:00"
    [VStr "Encryption key rotation"].

(** [sample_pm] with one more meeting file, dated in the future. *)
Definition future_pm : ProjectManager :=
  set_dir Meeting
    [("meeting_20240220_100000_ab12cd34.json", Ok recent_meeting);
     ("meeting_20310704_090000_f00dfeed.json", Ok future_meeting)]
    sample_pm.

(** A store with no record file at all. *)
Definition empty_pm : ProjectManager :=
  {| project_name := "Confidant";
     project_metadata_path := ".project_management/project_metadata.json";
     meetings_dir := []; requirements_dir := []; logs_dir := [];
     project_metadata := Some (Ok sample_metadata) |}.

Definition sample_stamp : stamp :=
  {| timestamp := "20240301_120000";
     uuid_hex := "9f86d081884c7d659a2feaa0c55ad015";
     date_iso := "2024-03-01T12:00:00.123456";
     last_updated_iso := "2024-03-01T12:00:00.125000" |}.

Definition sample_details : value :=
  VDict [("participants", VList [VStr "Project Lead"; VStr "Developer"]);
         ("key_discussions", VList [VStr "Memory storage architecture"])].

(** The module-level state of [web_app.py] over [sample_pm], with two
    turns already in the buffer. *)
Definition sample_world : world :=
  {| confidant_project := sample_pm;
     conversation_manager :=
       {| history := [{| role := "user"; content := "Hello" |};
                      {| role := "assistant"; content := "Hi, how can I help?" |}];
          max_history_length := default_max_history_length |};
     logged := [] |}.

(** The same state over [corrupt_pm]. *)
Definition corrupt_world : world :=
  {| confidant_project := corrupt_pm;
     conversation_manager := conversation_manager sample_world;
     logged := [] |}.

(** The same state with a metadata file that does not hold JSON. *)
Definition broken_index_world : world :=
  {| confidant_project := set_metadata (Raise json_error) sample_pm;
     conversation_manager := conversation_manager sample_world;
     logged := [] |}.

Definition replying_provider (system : string) (messages : list turn)
  : result (list content_block) :=
  Ok [TextBlock "Keep the key in the local store."].

Definition failing_provider (system : string) (messages : list turn)
  : result (list content_block) :=
  Raise (Exn APIError "Connection error.").

Definition twenty_one_turns : list turn :=
  map (fun n => {| role := if Nat.even n then "user" else "assistant";
                   content := "turn " ++ NilZero.string_of_uint (Nat.to_uint n) |})
      (seq 0 21).

(* ================================================================== *)
(** ** [project_management.py]: construction, bootstrap and export *)

(** The dict [_initialize_project_metadata] writes; the two strings are
    the two [isoformat] readings of the clock. *)
Definition initial_metadata (project_name created_at last_updated : string) : value :=
  VDict [("project_name", VStr project_name);
         ("created_at", VStr created_at);
         ("last_updated", VStr last_updated);
         ("status", VStr "Active");
         ("milestones", VList []);
         ("key_objectives", VList [])].

Definition _initialize_project_metadata (created_at last_updated : string)
    (pm : ProjectManager) : ProjectManager :=
  match project_metadata pm with
  | None =>
      set_metadata (Ok (initial_metadata (project_name pm) created_at last_updated)) pm
  | Some _ => pm
  end.

Definition seed_meeting : value :=
  VDict [("participants", VList [VStr "Project Lead"; VStr "AI Assistant"]);
         ("key_discussions",
          VList [VStr "Confidant Project Memory Storage Architecture";
                 VStr "Privacy and Security Mechanisms"]);
         ("action_items",
          VList [VStr "Design local encryption strategy";
                 VStr "Create security access control specification"]);
         ("decisions",
          VList [VStr "Use end-to-end local encryption";
                 VStr "Implement multi-tier access control"])].

Definition seed_requirement : value :=
  VDict [("category", VStr "Technical Requirements");
         ("changes",
          VList [VStr "Added offline functionality specification";
                 VStr "Enhanced local data privacy requirements"]);
         ("rationale",
          VStr "Ensure complete user data protection and system independence");
         ("impact",
          VList [VStr "Requires additional local processing capabilities";
                 VStr "Increases system security"])].

Definition seed_milestone : value :=
  VDict [("name", VStr "Initial Architecture Design");
         ("description",
          VStr "Complete high-level system design for Confidant project");
         ("status", VStr "Completed");
         ("key_achievements",
          VList [VStr "Defined memory storage approach";
                 VStr "Outlined security mechanisms";
                 VStr "Created initial system architecture concept"])].

(** [not os.listdir(dir)]. *)
Definition no_entries (dir : directory) : bool :=
  match dir with
  | [] => true
  | _ :: _ => false
  end.

(** The guard of [initialize_project_context]: no entry in any of the
    three directories. *)
Definition all_empty (pm : ProjectManager) : bool :=
  no_entries (meetings_dir pm) && no_entries (requirements_dir pm)
  && no_entries (logs_dir pm).

(** [initialize_project_context()]; the three stamps are what the clock
    and [uuid4] give to the three log calls.  Returns the store and what
    is sent to the logger. *)
Definition initialize_project_context (st1 st2 st3 : stamp) (pm : ProjectManager)
  : ProjectManager * list log_record :=
  let failed (e : exn) (pm : ProjectManager) :=
    (pm, [(ERROR, "Error initializing project context: " ++ exn_str e)]) in
  if all_empty pm
  then
    match log_meeting st1 seed_meeting pm with
    | (Raise e, pm) => failed e pm
    | (Ok _, pm) =>
        match log_requirement_change st2 seed_requirement pm with
        | (Raise e, pm) => failed e pm
        | (Ok _, pm) =>
            match log_milestone st3 seed_milestone pm with
            | (Raise e, pm) => failed e pm
            | (Ok _, pm) => (pm, [])
            end
        end
    end
  else (pm, []).

(** [ProjectManager.__init__] on the directories as found on disk (the
    [os.makedirs] calls make a missing directory an empty one): metadata
    first, then the bootstrap. *)
Definition ProjectManager_init (created_at last_updated : string)
    (st1 st2 st3 : stamp) (disk : ProjectManager)
  : ProjectManager * list log_record :=
  initialize_project_context st1 st2 st3
    (_initialize_project_metadata created_at last_updated disk).

(** The kind-specific fields as a log operation fills them from a dict
    of details: the caller's value, or the default. *)
Definition merged_fields (entries fields : list (string * value))
  : list (string * value) :=
  map (fun field =>
         (fst field,
          match assoc (fst field) entries with
          | Some v => v
          | None => snd field
          end)) fields.

(** The entries of a dict. *)
Definition entries_of (v : value) : list (string * value) :=
  match v with
  | VDict entries => entries
  | _ => []
  end.

(** The record a log operation builds from a dict of details. *)
Definition written_record (k : kind) (st : stamp) (entries : list (string * value))
  : value :=
  VDict (("id", VStr (new_id k st)) :: ("timestamp", VStr (timestamp st))
         :: ("date", VStr (date_iso st))
         :: merged_fields entries (field_defaults k)).

(** A sequence of log operations, one after the other, each with its kind,
    its stamp and its details; an operation that raises does not stop the
    ones after it (each is its own call). *)
Fixpoint log_each (ops : list (kind * stamp * value)) (pm : ProjectManager)
  : ProjectManager :=
  match ops with
  | [] => pm
  | (k, st, details) :: rest => log_each rest (snd (log_record_of k st details pm))
  end.

Definition same_kind (k k' : kind) : bool :=
  match k, k' with
  | Meeting, Meeting | Requirement, Requirement | Milestone, Milestone => true
  | _, _ => false
  end.

(** The identifiers the index lists for a kind; none when the section is
    missing. *)
Definition listed (k : kind) (index : list (string * value)) : list value :=
  match assoc (section_of k) index with
  | Some (VList items) => items
  | _ => []
  end.

(** The section of a kind is usable by [_update_project_metadata]: missing,
    or a list. *)
Definition section_usable (k : kind) (index : list (string * value)) : Prop :=
  assoc (section_of k) index = None \/
  exists items, assoc (section_of k) index = Some (VList items).

(** The [summary] dict as [json.dump] writes it. *)
Definition summary_value (s : Summary) : value :=
  VDict [("project_name", VStr (summary_project_name s));
         ("summary_period", VStr (summary_period s));
         ("meetings", VList (meetings s));
         ("requirement_changes", VList (requirement_changes s));
         ("milestones", VList (milestones s))].

Section Reports.

Variable fromisoformat : string -> result datetime.

(** [os.path.join] on two components. *)
Variable os_path_join : string -> string -> string.

(** [export_project_report(days)]: [reports] is the listing of
    [self.reports_dir], [reports_path] its path, [now] the clock reading
    of the scan and [stamp] the [strftime] reading for the file name. *)
Definition export_project_report (pm : ProjectManager) (reports_path : string)
    (reports : directory) (now : Z) (stamp : string) (days : Z)
  : result string * directory :=
  match generate_project_summary fromisoformat pm now days with
  | Raise e => (Raise e, reports)
  | Ok summary =>
      let report_filename := "project_report_" ++ stamp ++ ".json" in
      let report_path := os_path_join reports_path report_filename in
      (Ok report_path, write_json report_filename (summary_value summary) reports)
  end.

(** What makes a file acceptable to the scan: it decodes, and its [date]
    parses to a naive datetime. *)
Definition usable (content : file) : Prop :=
  exists record d,
    content = Ok record /\ record_date fromisoformat record = Ok d /\
    utcoffset d = None.

(** Whether the loop of [generate_project_summary] appends [record]. *)
Definition later_than (cutoff_date : datetime) (record : value) : bool :=
  match (date <- record_date fromisoformat record ;; dt_gt date cutoff_date) with
  | Ok recent => recent
  | Raise _ => false
  end.

End Reports.

(* ================================================================== *)
(** ** [web_app.py]: the project assistant *)

Module ProjectAssistant.

Definition generate_system_prompt (project_context : string) : string :=
  "You are an AI Project Management Assistant helping to guide and document a complex software project.

Project Context:
" ++ project_context ++ "

Your responsibilities:
- Provide strategic guidance for project development
- Help document meetings, requirements, and milestones
- Offer insights into project progress and potential challenges
- Use markdown for clear, structured communication
- Break down complex project management tasks
- Suggest best practices for software development
- Maintain a forward-looking perspective on project goals

Communication Guidelines:
- Be concise and actionable
- Highlight potential risks and opportunities
- Provide constructive recommendations
- Ensure all suggestions are aligned with the project's core objectives".

Definition pm_keywords : list string :=
  ["meeting"; "milestone"; "requirement"; "progress";
   "task"; "action item"; "decision"; "strategy"].

(** [any(keyword in query.lower() for keyword in pm_keywords)]. *)
Definition mentions_project_management (query : string) : bool :=
  existsb (fun keyword => is_substring keyword (lower query)) pm_keywords.

Definition interaction_details (query response : string) : value :=
  VDict [("participants", VList [VStr "AI Assistant"; VStr "User"]);
         ("key_discussions", VList [VStr query]);
         ("action_items", VList [VStr response]);
         ("decisions",
          VList [VStr "Recorded AI-assisted project management interaction"])].

Definition _log_project_interaction (st : stamp) (query response : string)
    (pm : ProjectManager) (logs : list log_record)
  : ProjectManager * list log_record :=
  if mentions_project_management query then
    match log_meeting st (interaction_details query response) pm with
    | (Ok _, pm) => (pm, logs)
    | (Raise log_error, pm) =>
        (pm, emit logs ERROR
               ("Could not log project interaction: " ++ exn_str log_error))
    end
  else (pm, logs).

(** The [full_context] f-string of [run]. *)
Definition full_context (recent_summary : Summary) (project_context : string)
  : string :=
  "Recent Project Summary:" ++ nl
  ++ "Meetings: " ++ str_int (Z.of_nat (List.length (meetings recent_summary))) ++ nl
  ++ "Requirement Changes: "
  ++ str_int (Z.of_nat (List.length (requirement_changes recent_summary))) ++ nl
  ++ "Milestones: " ++ str_int (Z.of_nat (List.length (milestones recent_summary)))
  ++ nl ++ nl ++ project_context.

Section Run.

Variable fromisoformat : string -> result datetime.
Variable messages_create : string -> list turn -> result (list content_block).

Definition run_failed (e : exn) (w : world) : string * world :=
  ("An error occurred: " ++ exn_str e,
   {| confidant_project := confidant_project w;
      conversation_manager := conversation_manager w;
      logged := emit (logged w) ERROR
                  ("Error in project assistant interaction: " ++ exn_str e) |}).

(** [ProjectAssistant.run(query, project_context)]; its project manager is
    the module-level [confidant_project]. *)
Definition run (now : Z) (st : stamp) (query project_context : string) (w : world)
  : string * world :=
  match generate_project_summary fromisoformat (confidant_project w) now 30 with
  | Raise e => run_failed e w
  | Ok recent_summary =>
      match (response <- messages_create
                           (generate_system_prompt
                              (full_context recent_summary project_context))
                           [{| role := "user"; content := query |}] ;;
             first_text response) with
      | Raise e => run_failed e w
      | Ok ai_response =>
          let '(pm, logs) :=
            _log_project_interaction st query ai_response
              (confidant_project w) (logged w) in
          (ai_response,
           {| confidant_project := pm;
              conversation_manager := conversation_manager w;
              logged := logs |})
      end
  end.

End Run.

End ProjectAssistant.

(** Two more stamps, for the seeds of the bootstrap. *)
Definition sample_stamp_2 : stamp :=
  {| timestamp := "20240301_120001";
     uuid_hex := "0b4e7a0e5fe84ad35fb5f95b9ceeac79";
     date_iso := "2024-03-01T12:00:01.000250";
     last_updated_iso := "2024-03-01T12:00:01.002000" |}.

Definition sample_stamp_3 : stamp :=
  {| timestamp := "20240301_120001";
     uuid_hex := "c4ca4238a0b923820dcc509a6f75849b";
     date_iso := "2024-03-01T12:00:01.004500";
     last_updated_iso := "2024-03-01T12:00:01.006000" |}.

(** A project directory nothing was written to yet. *)
Definition fresh_disk : ProjectManager :=
  {| project_name := "Confidant";
     project_metadata_path := ".project_management/project_metadata.json";
     meetings_dir := []; requirements_dir := []; logs_dir := [];
     project_metadata := None |}.

(** An empty store whose metadata file does not hold JSON. *)
Definition broken_index_disk : ProjectManager :=
  set_metadata (Raise json_error) fresh_disk.

(** [sample_pm] after a meeting was logged whose [key_discussions] is a
    number. *)
Definition spoiled_pm : ProjectManager :=
  snd (log_meeting sample_stamp (VDict [("key_discussions", VInt 5)]) sample_pm).

(** [os.path.join] of two relative components on POSIX. *)
Definition posix_join (a b : string) : string := a ++ "/" ++ b.

(* ================================================================== *)
(** * Properties *)

Example repr_dict :
  repr (VDict [("id", VStr "m1"); ("tags", VList [VStr "it's"; VInt (-3); VNone])])
  = "{'id': 'm1', 'tags': [" ++ chr dquote ++ "it's" ++ chr dquote ++ ", -3, None]}".
Proof. reflexivity. Qed.

Example fromisoformat_written_sample :
  fromisoformat_written "2024-01-15T10:30:00.123456" = Ok (naive 63840911400123456).
Proof. reflexivity. Qed.

Lemma bind_ok {A B} (c : result A) (k : A -> result B) (b : B) :
  bind c k = Ok b -> exists a, c = Ok a /\ k a = Ok b.
Proof. destruct c as [a|e]; simpl; intros H; [eauto | discriminate]. Qed.

Ltac bind_inv H :=
  let x := fresh "x" in
  let Hx := fresh "Hx" in
  apply bind_ok in H; destruct H as (x & Hx & H).

(** ** Strings *)

Lemma append_assoc (a b c : string) : (a ++ b) ++ c = a ++ b ++ c.
Proof. induction a as [| x a IH]; simpl; [reflexivity | now rewrite IH]. Qed.

Lemma append_nil (a : string) : a ++ EmptyString = a.
Proof. induction a as [| x a IH]; simpl; [reflexivity | now rewrite IH]. Qed.

Lemma prefix_app n h :
  String.prefix n h = true <-> exists post, h = n ++ post.
Proof.
  revert h. induction n as [| c n IH]; intros h.
  - destruct h; simpl; split; eauto.
  - destruct h as [| c' h]; simpl; [split; [discriminate | intros [? [=]]] |].
    destruct (ascii_dec c c') as [-> | Hne].
    + rewrite IH. split; intros [post E]; exists post; congruence.
    + split; [discriminate | intros [post E]; simpl in E; congruence].
Qed.

Lemma is_substring_unfold n h :
  is_substring n h =
  String.prefix n h || match h with
                       | EmptyString => false
                       | String _ rest => is_substring n rest
                       end.
Proof. destruct h; reflexivity. Qed.

Lemma is_substring_spec n h :
  is_substring n h = true <-> exists pre post, h = pre ++ n ++ post.
Proof.
  induction h as [| c h IH]; rewrite is_substring_unfold, orb_true_iff, prefix_app.
  - split.
    + intros [[post E] | [=]]. exists EmptyString, post. exact E.
    + intros (pre & post & E). left.
      destruct pre; [eauto | discriminate].
  - rewrite IH. split.
    + intros [[post E] | (pre & post & E)].
      * exists EmptyString, post. exact E.
      * exists (String c pre), post. simpl. now rewrite E.
    + intros (pre & post & E). destruct pre as [| c' pre]; simpl in E.
      * left. eauto.
      * right. injection E as _ E. eauto.
Qed.

Lemma is_substring_app n pre h post :
  is_substring n h = true -> is_substring n (pre ++ h ++ post) = true.
Proof.
  rewrite !is_substring_spec. intros (a & b & ->).
  exists (pre ++ a), (b ++ post). now rewrite !append_assoc.
Qed.

Lemma lower_app a b : lower (a ++ b) = lower a ++ lower b.
Proof. induction a as [| c a IH]; simpl; [reflexivity | now rewrite IH]. Qed.

Lemma repr_chars_app q a b :
  repr_chars q (a ++ b) = repr_chars q a ++ repr_chars q b.
Proof.
  induction a as [| c a IH]; simpl; [reflexivity |].
  now rewrite IH, append_assoc.
Qed.

Lemma repr_quote_cases s : repr_quote s = squote \/ repr_quote s = dquote.
Proof. unfold repr_quote. destruct (_ && _); auto. Qed.

(** Escaping and lower-casing commute, character by character. *)
Lemma lower_repr_char q c :
  q = squote \/ q = dquote ->
  lower (repr_char q c) = repr_char q (lower_char c).
Proof.
  intros [-> | ->];
    destruct c as [[] [] [] [] [] [] [] []]; vm_compute; reflexivity.
Qed.

Lemma lower_repr_chars q s :
  q = squote \/ q = dquote ->
  lower (repr_chars q s) = repr_chars q (lower s).
Proof.
  intros Hq. induction s as [| c s IH]; simpl; [reflexivity |].
  now rewrite lower_app, IH, lower_repr_char.
Qed.

Lemma lower_repr_str_contains word s :
  plain word ->
  is_substring word (lower s) = true ->
  is_substring word (lower (repr_str s)) = true.
Proof.
  intros [Hs Hd] H.
  assert (E : lower (repr_str s) =
              chr (lower_char (repr_quote s))
              ++ repr_chars (repr_quote s) (lower s) ++ lower (chr (repr_quote s))).
  { unfold repr_str. simpl.
    now rewrite lower_app, lower_repr_chars by apply repr_quote_cases. }
  rewrite E. apply is_substring_app.
  apply is_substring_spec in H as (pre & post & ->).
  rewrite !repr_chars_app. apply is_substring_app.
  destruct (repr_quote_cases s) as [-> | ->]; rewrite ?Hs, ?Hd;
    apply is_substring_spec; exists EmptyString, EmptyString;
    simpl; now rewrite append_nil.
Qed.

Lemma join_contains sep (x : string) parts :
  In x parts -> exists pre post, join sep parts = pre ++ x ++ post.
Proof.
  induction parts as [| p rest IH]; [easy |]. intros [-> | Hin].
  - destruct rest as [| p' rest'].
    + exists EmptyString, EmptyString. simpl. now rewrite append_nil.
    + exists EmptyString, (sep ++ join sep (p' :: rest')). reflexivity.
  - destruct (IH Hin) as (pre & post & E).
    destruct rest as [| p' rest']; [easy |].
    exists (p ++ sep ++ pre), post.
    change (join sep (p :: p' :: rest')) with (p ++ sep ++ join sep (p' :: rest')).
    now rewrite E, !append_assoc.
Qed.

Lemma assoc_in k v entries : assoc k entries = Some v -> In (k, v) entries.
Proof.
  induction entries as [| [k' v'] rest IH]; simpl; [discriminate |].
  destruct (String.eqb_spec k k') as [-> | _].
  - intros [= ->]. now left.
  - auto.
Qed.

(** The text of a dict holds the text of each of its values. *)
Lemma repr_dict_contains k v entries :
  In (k, v) entries ->
  exists pre post, repr (VDict entries) = pre ++ repr v ++ post.
Proof.
  intros Hin.
  pose (item := fun kv : string * value => repr_str (fst kv) ++ ": " ++ repr (snd kv)).
  destruct (join_contains ", " (item (k, v)) (map item entries)) as (pre & post & E).
  { now apply in_map. }
  exists ("{" ++ pre ++ repr_str k ++ ": "), (post ++ "}").
  change (repr (VDict entries)) with ("{" ++ join ", " (map item entries) ++ "}").
  rewrite E. unfold item. cbn [fst snd].
  generalize (repr_str k) (repr v). intros a b. now rewrite !append_assoc.
Qed.

(** A record one of whose fields is a string holding [word], in any
    letter case, matches the category [word]. *)
Lemma field_matches_category word key s entries :
  plain word -> lower word = word ->
  assoc key entries = Some (VStr s) ->
  is_substring word (lower s) = true ->
  matches_category word (VDict entries) = true.
Proof.
  intros Hp Hl Ha Hs. unfold matches_category. rewrite Hl.
  destruct (repr_dict_contains _ _ _ (assoc_in _ _ _ Ha)) as (pre & post & E).
  change (str (VDict entries)) with (repr (VDict entries)).
  rewrite E, !lower_app. apply is_substring_app.
  now apply lower_repr_str_contains.
Qed.

Lemma is_substring_lower word s :
  is_substring word s = true -> is_substring (lower word) (lower s) = true.
Proof.
  rewrite !is_substring_spec. intros (pre & post & ->).
  exists (lower pre), (lower post). now rewrite !lower_app.
Qed.

(** ** Letter case

    [lower] identifies two texts exactly when they are the same letter for
    letter, capitals and small letters taken together; so the test of the
    code, [lower category] inside [lower text], is the occurrence of
    [category] in [text] with letter case set aside. *)

Lemma is_capital_range n :
  is_capital n = true <-> (65 <= n <= 90 \/ (192 <= n <= 222 /\ n <> 215))%nat.
Proof.
  unfold is_capital.
  rewrite orb_true_iff, !andb_true_iff, negb_true_iff, !Nat.leb_le, Nat.eqb_neq.
  tauto.
Qed.

Lemma nat_of_ascii_inj a b : nat_of_ascii a = nat_of_ascii b -> a = b.
Proof.
  intros H. apply (f_equal ascii_of_nat) in H.
  now rewrite !ascii_nat_embedding in H.
Qed.

Lemma nat_of_lower_char c :
  nat_of_ascii (lower_char c) =
  (if is_capital (nat_of_ascii c) then nat_of_ascii c + 32 else nat_of_ascii c)%nat.
Proof.
  change (lower_char c)
    with (if is_capital (nat_of_ascii c)
          then ascii_of_nat (nat_of_ascii c + 32) else c).
  destruct (is_capital (nat_of_ascii c)) eqn:E; [| reflexivity].
  apply nat_ascii_embedding. apply is_capital_range in E. lia.
Qed.

Lemma same_letter_lower a b : same_letter a b <-> lower_char a = lower_char b.
Proof.
  split.
  - intros [-> | [[Hc Hn] | [Hc Hn]]]; [reflexivity | |];
      apply nat_of_ascii_inj; rewrite !nat_of_lower_char, Hc;
      pose proof (proj1 (is_capital_range _) Hc) as R.
    + destruct (is_capital (nat_of_ascii b)) eqn:E; [| lia].
      apply is_capital_range in E. lia.
    + destruct (is_capital (nat_of_ascii a)) eqn:E; [| lia].
      apply is_capital_range in E. lia.
  - intros H. apply (f_equal nat_of_ascii) in H. rewrite !nat_of_lower_char in H.
    destruct (is_capital (nat_of_ascii a)) eqn:Ea;
      destruct (is_capital (nat_of_ascii b)) eqn:Eb.
    + left. apply nat_of_ascii_inj. lia.
    + right. left. split; [exact Ea | lia].
    + right. right. split; [exact Eb | lia].
    + left. now apply nat_of_ascii_inj.
Qed.

Lemma same_text_lower s t : same_text s t <-> lower s = lower t.
Proof.
  split.
  - induction 1 as [| a b s t Hl _ IH]; simpl; [reflexivity |].
    apply same_letter_lower in Hl. now rewrite Hl, IH.
  - revert t. induction s as [| a s IH]; intros [| b t] H; simpl in H;
      try discriminate; [constructor |].
    injection H as Hl H. constructor; [now apply same_letter_lower | now apply IH].
Qed.

Lemma lower_split s a b :
  lower s = a ++ b -> exists s1 s2, s = s1 ++ s2 /\ lower s1 = a /\ lower s2 = b.
Proof.
  revert s. induction a as [| c a IH]; intros s H.
  - exists EmptyString, s. auto.
  - destruct s as [| c' s]; simpl in H; [discriminate |].
    injection H as Hc H. destruct (IH _ H) as (s1 & s2 & -> & H1 & H2).
    exists (String c' s1), s2. simpl. now rewrite Hc, H1.
Qed.

Lemma occurs_ignoring_case_iff word text :
  occurs_ignoring_case word text <-> is_substring (lower word) (lower text) = true.
Proof.
  rewrite is_substring_spec. split.
  - intros (p & m & q & -> & Hm). apply same_text_lower in Hm.
    exists (lower p), (lower q). now rewrite !lower_app, Hm.
  - intros (pre & post & E).
    apply lower_split in E as (p & rest & -> & Hp & E).
    apply lower_split in E as (m & q & -> & Hm & Hq).
    exists p, m, q. split; [reflexivity |]. now apply same_text_lower.
Qed.

(** ** The time window *)

Lemma minus_days_ok now days c :
  minus_days now days = Ok c -> c = naive (now - days * day_us).
Proof.
  unfold minus_days. destruct (_ || _); [discriminate|].
  destruct (999999999 <? Z.abs days); [discriminate|].
  destruct (_ && _); [| discriminate]. now intros [= <-].
Qed.

Lemma dt_gt_naive d t :
  dt_gt d (naive t) = Ok true <-> utcoffset d = None /\ t < ticks d.
Proof.
  unfold dt_gt; simpl. destruct (utcoffset d); split.
  - discriminate.
  - intros [? _]; discriminate.
  - intros [= H]. split; [reflexivity | lia].
  - intros [_ H]. f_equal. apply Z.ltb_lt, H.
Qed.

Ltac unfold_context := unfold get_recent_context, get_category_summary.

Section Scan.

Variable fromisoformat : string -> result datetime.

Abbreviation record_date := (record_date fromisoformat).
Abbreviation collect := (collect fromisoformat).
Abbreviation generate_project_summary := (generate_project_summary fromisoformat).
Abbreviation get_recent_context := (get_recent_context fromisoformat).
Abbreviation get_category_summary := (get_category_summary fromisoformat).

(** A record is in what a loop returns exactly when the loop started with
    it or appended it: some scanned file decodes to it and its date is
    later than the cutoff. *)
Lemma collect_spec keep cutoff dir :
  forall acc l, collect keep cutoff dir acc = Ok l ->
  forall r, In r l <->
    In r acc \/
    exists name d, In (name, Ok r) dir /\ keep name = true /\
                   record_date r = Ok d /\ dt_gt d cutoff = Ok true.
Proof.
  induction dir as [| [name content] rest IH]; simpl; intros acc l H r.
  - injection H as <-. split; [auto |]. intros [?|(? & ? & [] & _)]; assumption.
  - destruct (keep name) eqn:K.
    + bind_inv H. subst content. bind_inv H. bind_inv H.
      rename x into rec, x0 into d, x1 into recent.
      rewrite (IH _ _ H r). split.
      * intros [Hin | (n & d' & Hin & Hk & Hd & Hg)].
        -- destruct recent; [apply in_app_or in Hin as [Hin | [<- | []]] |]; auto.
           right. exists name, d. auto.
        -- right. exists n, d'. auto.
      * intros [Hin | (n & d' & [Heq | Hin] & Hk & Hd & Hg)].
        -- left. destruct recent; [apply in_or_app |]; auto.
        -- injection Heq as -> ->. left.
           assert (d' = d) by congruence. subst d'.
           assert (recent = true) by congruence. subst recent.
           apply in_or_app. right. now left.
        -- right. exists n, d'. auto.
    + rewrite (IH _ _ H r). split.
      * intros [Hin | (n & d' & Hin & Hk & Hd & Hg)]; [auto |].
        right. exists n, d'. auto.
      * intros [Hin | (n & d' & [Heq | Hin] & Hk & Hd & Hg)]; [auto | |].
        -- injection Heq as -> ->. congruence.
        -- right. exists n, d'. auto.
Qed.

(** A scanned file on which [json.load] raises ends the loop with an
    exception, whatever was collected before it. *)
Lemma collect_raises keep cutoff dir name e :
  In (name, Raise e) dir -> keep name = true ->
  forall acc, exists e', collect keep cutoff dir acc = Raise e'.
Proof.
  induction dir as [| [name' content] rest IH]; simpl; intros Hin K acc; [easy|].
  destruct Hin as [Heq | Hin].
  - injection Heq as -> ->. rewrite K. simpl. eauto.
  - destruct (keep name'); [| auto].
    destruct content as [rec | e0]; simpl; [| eauto].
    destruct (record_date rec) as [d | e1]; simpl; [| eauto].
    destruct (dt_gt d cutoff) as [recent | e2]; simpl; eauto.
Qed.

(** When a loop ends normally, every date it compared with the naive
    cutoff was naive too. *)
Lemma collect_ok_naive keep t dir name r d :
  forall acc l, collect keep (naive t) dir acc = Ok l ->
  In (name, Ok r) dir -> keep name = true -> record_date r = Ok d ->
  utcoffset d = None.
Proof.
  induction dir as [| [n c] rest IH]; simpl; intros acc l H Hin K Hd; [easy |].
  destruct Hin as [Heq | Hin].
  - injection Heq as -> ->. rewrite K in H. simpl in H. rewrite Hd in H.
    simpl in H. unfold dt_gt in H. simpl in H.
    destruct (utcoffset d); [discriminate | reflexivity].
  - destruct (keep n).
    + bind_inv H. bind_inv H. bind_inv H. eauto.
    + eauto.
Qed.

Lemma generate_ok pm now days s :
  generate_project_summary pm now days = Ok s ->
  minus_days now days = Ok (naive (now - days * day_us)) /\
  forall k, collect (scanned k) (naive (now - days * day_us)) (dir_of k pm) []
            = Ok (records_of k s).
Proof.
  unfold generate_project_summary. intros H.
  bind_inv H. pose proof (minus_days_ok _ _ _ Hx) as ->.
  bind_inv H. bind_inv H. bind_inv H. injection H as <-.
  split; [assumption |]. intros []; assumption.
Qed.

Lemma in_summary pm now days s k r :
  generate_project_summary pm now days = Ok s ->
  In r (records_of k s) <->
  exists name d, In (name, Ok r) (dir_of k pm) /\ scanned k name = true /\
                 record_date r = Ok d /\ utcoffset d = None /\
                 now - days * day_us < ticks d.
Proof.
  intros H. destruct (generate_ok _ _ _ _ H) as [_ Hc].
  rewrite (collect_spec _ _ _ _ _ (Hc k) r). split.
  - intros [[] | (name & d & Hin & Hk & Hd & Hg)].
    apply dt_gt_naive in Hg. exists name, d. tauto.
  - intros (name & d & Hin & Hk & Hd & Hg). right.
    exists name, d. rewrite dt_gt_naive. tauto.
Qed.

(** The scan returns whenever the cutoff is a valid date and every file it
    opens decodes to a record with a naive, well-formed [date]. *)
Lemma collect_returns keep t dir :
  (forall name content, In (name, content) dir -> keep name = true ->
     exists r d, content = Ok r /\ record_date r = Ok d /\ utcoffset d = None) ->
  forall acc, exists l, collect keep (naive t) dir acc = Ok l.
Proof.
  induction dir as [| [name content] rest IH]; simpl; intros W acc; [eauto |].
  destruct (keep name) eqn:K.
  - destruct (W name content (or_introl eq_refl) K) as (r & d & -> & Hd & Hn).
    simpl. rewrite Hd. simpl. unfold dt_gt. rewrite Hn. simpl.
    apply IH. intros n c Hin. apply W. now right.
  - apply IH. intros n c Hin. apply W. now right.
Qed.

Lemma generate_returns pm now days cutoff :
  minus_days now days = Ok cutoff ->
  (forall k name content, In (name, content) (dir_of k pm) -> scanned k name = true ->
     exists r d, content = Ok r /\ record_date r = Ok d /\ utcoffset d = None) ->
  exists s, generate_project_summary pm now days = Ok s.
Proof.
  intros Hc W. unfold generate_project_summary. rewrite Hc.
  rewrite (minus_days_ok _ _ _ Hc). simpl.
  destruct (collect_returns (scanned Meeting) (now - days * day_us) (meetings_dir pm)
              (W Meeting) []) as [ms ->].
  destruct (collect_returns (scanned Requirement) (now - days * day_us)
              (requirements_dir pm) (W Requirement) []) as [rs ->].
  destruct (collect_returns (scanned Milestone) (now - days * day_us) (logs_dir pm)
              (W Milestone) []) as [ls ->].
  simpl. eauto.
Qed.

(** C2: a scanned record file whose [date] parses to [d] is in the
    Summary of [generate_project_summary(days)] if and only if [d] is
    strictly later than [now - days]; a record dated exactly [now - days]
    is left out. *)
Theorem summary_window_membership pm now days s k name record d :
  generate_project_summary pm now days = Ok s ->
  In (name, Ok record) (dir_of k pm) ->
  scanned k name = true ->
  record_date record = Ok d ->
  (In record (records_of k s) <-> now - days * day_us < ticks d) /\
  (ticks d = now - days * day_us -> ~ In record (records_of k s)).
Proof.
  intros H Hin Hk Hd.
  assert (Hiff : In record (records_of k s) <-> now - days * day_us < ticks d).
  { rewrite (in_summary _ _ _ _ k record H). split.
    - intros (n & d' & _ & _ & Hd' & _ & Hlt). congruence.
    - intros Hlt. exists name, d. repeat split; try assumption.
      destruct (generate_ok _ _ _ _ H) as [_ Hc].
      exact (collect_ok_naive _ _ _ _ _ _ _ _ (Hc k) Hin Hk Hd). }
  split; [exact Hiff |]. intros Heq Hin'. apply Hiff in Hin'. lia.
Qed.

(** C3: over one store and one reference time, a narrower window returns,
    in each of the three categories, only records that the wider window
    returns too. *)
Theorem summary_window_monotone pm now W1 W2 s1 s2 :
  W1 < W2 ->
  generate_project_summary pm now W1 = Ok s1 ->
  generate_project_summary pm now W2 = Ok s2 ->
  forall k, incl (records_of k s1) (records_of k s2).
Proof.
  intros HW H1 H2 k r Hin.
  apply (in_summary _ _ _ _ k r H1) in Hin as (name & d & Hf & Hk & Hd & Hn & Hlt).
  apply (in_summary _ _ _ _ k r H2). exists name, d.
  repeat split; try assumption. unfold day_us in *. nia.
Qed.

Lemma generate_raises pm now days k name e :
  In (name, Raise e) (dir_of k pm) -> scanned k name = true ->
  exists e', generate_project_summary pm now days = Raise e'.
Proof.
  intros Hin Hk. unfold generate_project_summary.
  destruct (minus_days now days) as [cutoff | e0]; simpl; [| eauto].
  pose proof (fun k' => collect_raises (scanned k') cutoff (dir_of k' pm)) as R.
  destruct (collect (scanned Meeting) cutoff (meetings_dir pm) []) as [ms | e1] eqn:E1;
    simpl; [| eauto].
  destruct (collect (scanned Requirement) cutoff (requirements_dir pm) [])
    as [rs | e2] eqn:E2; simpl; [| eauto].
  destruct (collect (scanned Milestone) cutoff (logs_dir pm) []) as [ls | e3] eqn:E3;
    simpl; [| eauto].
  exfalso. destruct (R k name e Hin Hk []) as [e' He'].
  destruct k; simpl in He'; congruence.
Qed.

(** The loop stops at the first file it cannot use: when the files listed
    before a file that does not decode are all usable, the loop raises
    that file's exception. *)
Lemma collect_first_failure keep t before name e after :
  keep name = true ->
  (forall n c, In (n, c) before -> keep n = true -> usable fromisoformat c) ->
  forall acc,
    collect keep (naive t) (before ++ (name, Raise e) :: after)%list acc = Raise e.
Proof.
  intros K. induction before as [| [n c] rest IH]; simpl; intros W acc.
  - now rewrite K.
  - destruct (keep n) eqn:Kn.
    + destruct (W n c (or_introl eq_refl) Kn) as (r & d & -> & Hd & Hn).
      simpl. rewrite Hd. simpl. unfold dt_gt. rewrite Hn. simpl.
      apply IH. intros n' c' Hin. apply W. now right.
    + apply IH. intros n' c' Hin. apply W. now right.
Qed.

(** C1, as the code has it: a scanned record file that does not hold JSON
    makes [generate_project_summary] raise, so no Summary and none of the
    other records is returned; nothing is skipped.  The callers absorb the
    exception: [get_recent_context] returns an error text and logs an
    error, [get_category_summary] returns [{}] and logs an error.  Which
    exception it is: that of the cutoff when [now - days] cannot be
    represented; that of the file itself when the cutoff is valid and the
    files opened before it, in the order of the three loops and of each
    directory, are usable. *)
Theorem corrupt_record_aborts_scan pm now days k name e :
  In (name, Raise e) (dir_of k pm) ->
  scanned k name = true ->
  (exists e',
     generate_project_summary pm now days = Raise e' /\
     get_recent_context pm now days =
       ("Unable to generate project context. Error: " ++ exn_str e',
        [(ERROR, "Error generating recent context: " ++ exn_str e')])) /\
  (forall category, exists e',
     generate_project_summary pm now 30 = Raise e' /\
     get_category_summary pm now category =
       ([], [(ERROR, "Error retrieving category summary: " ++ exn_str e')])) /\
  (forall e0,
     minus_days now days = Raise e0 ->
     generate_project_summary pm now days = Raise e0) /\
  (forall cutoff before after,
     minus_days now days = Ok cutoff ->
     dir_of k pm = (before ++ (name, Raise e) :: after)%list ->
     (forall n c, In (n, c) before -> scanned k n = true ->
                  usable fromisoformat c) ->
     (forall k' n c, scanned_before k' k = true -> In (n, c) (dir_of k' pm) ->
                     scanned k' n = true -> usable fromisoformat c) ->
     generate_project_summary pm now days = Raise e /\
     get_recent_context pm now days =
       ("Unable to generate project context. Error: " ++ exn_str e,
        [(ERROR, "Error generating recent context: " ++ exn_str e)])).
Proof.
  intros Hin Hk. split; [| split; [| split]].
  - destruct (generate_raises pm now days k name e Hin Hk) as [e' He'].
    exists e'. split; [assumption |].
    unfold_context. now rewrite He'.
  - intros category.
    destruct (generate_raises pm now 30 k name e Hin Hk) as [e' He'].
    exists e'. split; [assumption |].
    unfold_context. now rewrite He'.
  - intros e0 Hc. unfold generate_project_summary. now rewrite Hc.
  - intros cutoff before after Hc Hdir Wb Wp.
    assert (He : generate_project_summary pm now days = Raise e).
    { unfold generate_project_summary. rewrite Hc.
      rewrite (minus_days_ok _ _ _ Hc). cbn [bind].
      pose proof (fun k' H => collect_returns (scanned k') (now - days * day_us)
                                (dir_of k' pm) (fun n c => Wp k' n c H) []) as R.
      pose proof (collect_first_failure (scanned k) (now - days * day_us)
                    before name e after Hk Wb []) as F.
      unfold file in F.
      destruct k; cbn [dir_of] in Hdir.
      - rewrite Hdir. now rewrite F.
      - destruct (R Meeting eq_refl) as [ms Hm]. cbn [dir_of] in Hm.
        rewrite Hm. cbn [bind]. rewrite Hdir. now rewrite F.
      - destruct (R Meeting eq_refl) as [ms Hm]. cbn [dir_of] in Hm.
        destruct (R Requirement eq_refl) as [rs Hr]. cbn [dir_of] in Hr.
        rewrite Hm. cbn [bind]. rewrite Hr. cbn [bind]. rewrite Hdir.
        now rewrite F. }
    split; [exact He |]. unfold_context. now rewrite He.
Qed.

(** C10, as the code has it: every record that [get_category_summary]
    returns has a date strictly later than thirty days before the call,
    the window of the [generate_project_summary()] it filters, so a record
    older than that is never returned.  That is the only test on the date:
    when the scan returns, a scanned record that matches the category is
    returned as soon as its date is later than that cutoff, be it later
    than the call itself. *)
Theorem category_summary_within_30_days pm now category :
  (forall key records record,
     In (key, records) (fst (get_category_summary pm now category)) ->
     In record records ->
     exists d, record_date record = Ok d /\ utcoffset d = None /\
               now - 30 * day_us < ticks d) /\
  (forall s k name record d,
     generate_project_summary pm now 30 = Ok s ->
     In (name, Ok record) (dir_of k pm) ->
     scanned k name = true ->
     record_date record = Ok d ->
     matches_category category record = true ->
     now - 30 * day_us < ticks d ->
     exists records,
       lookup (summary_key k) (fst (get_category_summary pm now category))
         = Some records /\
       In record records).
Proof.
  split.
  - intros key records record. unfold_context.
    destruct (generate_project_summary pm now 30) as [s | e] eqn:H; simpl; [| easy].
    intros Hkey Hin.
    assert (exists k, In record (records_of k s)) as [k Hk].
    { destruct Hkey as [E | [E | [E | []]]]; injection E as _ <-;
        apply filter_In in Hin as [Hin _];
        [exists Meeting | exists Requirement | exists Milestone]; exact Hin. }
    apply (in_summary _ _ _ _ k record H) in Hk
      as (name & d & _ & _ & Hd & Hn & Hlt).
    eauto.
  - intros s k name record d H Hin Hk Hd Hm Hlt.
    assert (Hs : In record (records_of k s)).
    { apply (in_summary _ _ _ _ k record H). exists name, d.
      repeat split; try assumption.
      destruct (generate_ok _ _ _ _ H) as [_ Hc].
      exact (collect_ok_naive _ _ _ _ _ _ _ _ (Hc k) Hin Hk Hd). }
    exists (filter (matches_category category) (records_of k s)). split.
    + unfold_context. rewrite H. destruct k; reflexivity.
    + apply filter_In. split; assumption.
Qed.

(** C6: when the Summary has no record in any of its three sequences,
    [get_recent_context] returns the header line naming the window and
    the three section labels with no line under any of them, and logs
    nothing. *)
Theorem empty_summary_context pm now days s :
  generate_project_summary pm now days = Ok s ->
  meetings s = [] -> requirement_changes s = [] -> milestones s = [] ->
  get_recent_context pm now days =
    ("Recent Project Context (Last " ++ str_int days ++ " days):" ++ nl ++ nl
     ++ "Meetings:" ++ nl
     ++ nl ++ "Requirement Changes:" ++ nl
     ++ nl ++ "Milestones:" ++ nl,
     []).
Proof.
  intros H Hm Hr Hl. unfold_context. rewrite H. simpl.
  unfold format_context. rewrite Hm, Hr, Hl. simpl.
  now rewrite !append_assoc.
Qed.


End Scan.

(** ** The scan on the sample store *)

Example sample_scan :
  generate_project_summary fromisoformat_written sample_pm sample_now 30
  = Ok sample_summary.
Proof. vm_compute. reflexivity. Qed.

Example sample_context :
  fst (get_recent_context fromisoformat_written sample_pm sample_now 30)
  = "Recent Project Context (Last 30 days):

Meetings:
- 2024-02-20T10:00:00.250000: Memory storage architecture, Privacy requirements

Requirement Changes:
- 2024-02-25T08:00:00.000001: Added offline functionality specification
- 2024-02-26T08:00:00: Offline mode

Milestones:
- Initial Architecture Design: Completed
".
Proof. vm_compute. reflexivity. Qed.

Lemma summary_window_membership_witness :
  In recent_meeting (records_of Meeting sample_summary) /\
  ~ In boundary_meeting (records_of Meeting sample_summary).
Proof.
  split.
  - apply (summary_window_membership fromisoformat_written sample_pm sample_now 30
             sample_summary Meeting "meeting_20240220_100000_ab12cd34.json"
             recent_meeting (naive 63844020000250000)).
    + vm_compute. reflexivity.
    + simpl. auto.
    + vm_compute. reflexivity.
    + vm_compute. reflexivity.
    + vm_compute. reflexivity.
  - apply (summary_window_membership fromisoformat_written sample_pm sample_now 30
             sample_summary Meeting "meeting_20240131_120000_0f0f0f0f.json"
             boundary_meeting (naive 63842299200000000)).
    + vm_compute. reflexivity.
    + simpl. auto.
    + vm_compute. reflexivity.
    + vm_compute. reflexivity.
    + vm_compute. reflexivity.
Defined.

Lemma summary_window_monotone_witness :
  exists s2,
    generate_project_summary fromisoformat_written sample_pm sample_now 120 = Ok s2 /\
    In old_meeting (records_of Meeting s2) /\
    incl (records_of Meeting sample_summary) (records_of Meeting s2).
Proof.
  eexists. split; [vm_compute; reflexivity |]. split.
  - simpl. auto.
  - apply (summary_window_monotone fromisoformat_written sample_pm sample_now 30 120
             sample_summary).
    + lia.
    + vm_compute. reflexivity.
    + vm_compute. reflexivity.
Defined.

(** C1 as stated fails: with one meeting file that does not hold JSON the
    scan raises the decoder's exception; the parseable meeting listed
    before it is not returned either. *)
Lemma corrupt_record_counterexample :
  In ("meeting_20240220_100000_ab12cd34.json", Ok recent_meeting)
     (meetings_dir corrupt_pm) /\
  In ("meeting_20240221_100000_baadf00d.json", Raise json_error)
     (meetings_dir corrupt_pm) /\
  generate_project_summary fromisoformat_written corrupt_pm sample_now 30
  = Raise json_error /\
  ~ exists s,
      generate_project_summary fromisoformat_written corrupt_pm sample_now 30 = Ok s.
Proof.
  repeat split; simpl; auto.
  intros [s H]. vm_compute in H. discriminate.
Qed.

Lemma corrupt_record_aborts_scan_witness :
  generate_project_summary fromisoformat_written corrupt_pm sample_now 30
  = Raise json_error /\
  get_recent_context fromisoformat_written corrupt_pm sample_now 30 =
    ("Unable to generate project context. Error: " ++ exn_str json_error,
     [(ERROR, "Error generating recent context: " ++ exn_str json_error)]).
Proof.
  apply (proj2 (proj2 (proj2
           (corrupt_record_aborts_scan fromisoformat_written corrupt_pm sample_now 30
              Meeting "meeting_20240221_100000_baadf00d.json" json_error
              (or_intror (or_introl eq_refl)) eq_refl)))
           (naive (sample_now - 30 * day_us))
           [("meeting_20240220_100000_ab12cd34.json", Ok recent_meeting)]
           [("meeting_20240131_120000_0f0f0f0f.json", Ok boundary_meeting)]).
  - vm_compute. reflexivity.
  - reflexivity.
  - intros n c [[= <- <-] | []] _.
    exists recent_meeting, (naive 63844020000250000).
    split; [reflexivity | split; [vm_compute; reflexivity | reflexivity]].
  - intros k' n c Hk'. destruct k'; discriminate.
Defined.

(** C10 as stated fails at the upper end: a meeting dated in July 2031 is
    returned by a call made on the first of March 2024. *)
Lemma future_record_counterexample :
  In ("meeting_20310704_090000_f00dfeed.json", Ok future_meeting)
     (meetings_dir future_pm) /\
  record_date fromisoformat_written future_meeting = Ok (naive 64076518800000000) /\
  sample_now < 64076518800000000 /\
  lookup "meetings"
    (fst (get_category_summary fromisoformat_written future_pm sample_now "encryption"))
  = Some [future_meeting].
Proof.
  split; [simpl; auto |]. split; [vm_compute; reflexivity |].
  split; [reflexivity |]. vm_compute. reflexivity.
Qed.

Lemma category_summary_within_30_days_witness :
  (exists d,
     record_date fromisoformat_written encryption_requirement = Ok d /\
     utcoffset d = None /\ sample_now - 30 * day_us < ticks d) /\
  (exists records,
     lookup "meetings"
       (fst (get_category_summary fromisoformat_written future_pm sample_now
               "encryption"))
     = Some records /\
     In future_meeting records).
Proof.
  split.
  - apply (proj1 (category_summary_within_30_days fromisoformat_written sample_pm
                    sample_now "encryption")
             "requirement_changes" [encryption_requirement]).
    + vm_compute. auto.
    + simpl. auto.
  - assert (S : exists s, generate_project_summary fromisoformat_written future_pm
                            sample_now 30 = Ok s)
      by (eexists; vm_compute; reflexivity).
    destruct S as [s S].
    apply (proj2 (category_summary_within_30_days fromisoformat_written future_pm
                    sample_now "encryption")
             s Meeting "meeting_20310704_090000_f00dfeed.json" future_meeting
             (naive 64076518800000000) S).
    + simpl. auto.
    + vm_compute. reflexivity.
    + vm_compute. reflexivity.
    + vm_compute. reflexivity.
    + vm_compute. reflexivity.
Defined.

Lemma empty_summary_context_witness :
  get_recent_context fromisoformat_written empty_pm sample_now 30 =
    ("Recent Project Context (Last 30 days):" ++ nl ++ nl
     ++ "Meetings:" ++ nl
     ++ nl ++ "Requirement Changes:" ++ nl
     ++ nl ++ "Milestones:" ++ nl,
     []).
Proof.
  apply (empty_summary_context fromisoformat_written empty_pm sample_now 30
           {| summary_project_name := "Confidant"; summary_period := "Last 30 days";
              meetings := []; requirement_changes := []; milestones := [] |});
    reflexivity.
Defined.


(** ** The conversation buffer *)

Lemma get_context_messages_history cm : get_context_messages cm = history cm.
Proof.
  unfold get_context_messages. induction (history cm) as [| [r c] h IH]; simpl;
    [reflexivity | now rewrite IH].
Qed.

Lemma add_message_ok cap h role content :
  1 <= cap ->
  add_message {| history := h; max_history_length := cap |} role content =
  Ok {| history := (if cap <=? Z.of_nat (List.length h) then tl h else h)
                   ++ [{| role := role; content := content |}];
        max_history_length := cap |}.
Proof.
  intros Hcap. unfold add_message. simpl.
  destruct (Z.leb_spec cap (Z.of_nat (List.length h))) as [Hle | Hlt].
  - destruct h; simpl in *; [lia | reflexivity].
  - reflexivity.
Qed.

(** After any sequence of appends the buffer holds the last
    [max_history_length] turns, oldest first. *)
Lemma add_messages_spec cap turns :
  1 <= cap ->
  forall h, Z.of_nat (List.length h) <= cap ->
  add_messages {| history := h; max_history_length := cap |} turns =
  Ok {| history := skipn (List.length (h ++ turns) - Z.to_nat cap) (h ++ turns);
        max_history_length := cap |}.
Proof.
  intros Hcap. induction turns as [| [r c] rest IH]; intros h Hh.
  - simpl. rewrite app_nil_r.
    replace (List.length h - Z.to_nat cap)%nat with 0%nat by lia. reflexivity.
  - cbn [add_messages role content]. rewrite add_message_ok by assumption. simpl bind.
    destruct (Z.leb_spec cap (Z.of_nat (List.length h))) as [Hle | Hlt].
    + destruct h as [| x h0]; [simpl in Hle; lia |]. simpl tl.
      rewrite IH by (rewrite length_app; simpl in *; lia).
      do 2 f_equal. rewrite <- app_assoc. simpl app.
      set (L := (h0 ++ _ :: rest)%list).
      assert (HL : (Z.to_nat cap <= List.length L)%nat)
        by (subst L; rewrite length_app; simpl in *; lia).
      cbn [List.length].
      replace (S (List.length L) - Z.to_nat cap)%nat
        with (S (List.length L - Z.to_nat cap))%nat by lia.
      reflexivity.
    + rewrite IH by (rewrite length_app; simpl; lia).
      now rewrite <- app_assoc.
Qed.

(** C4: [add_message] drops the turn at index 0 before appending exactly
    when the buffer already holds [max_history_length] turns or more;
    appending [max_history_length + 1] turns to an empty buffer leaves the
    last [max_history_length] of them in the order they came; after
    [reset()] the buffer reads empty. *)
Theorem conversation_buffer_fifo cap :
  1 <= cap ->
  (forall h role content,
     add_message {| history := h; max_history_length := cap |} role content =
     Ok {| history := (if cap <=? Z.of_nat (List.length h) then tl h else h)
                      ++ [{| role := role; content := content |}];
           max_history_length := cap |}) /\
  (forall turns,
     Z.of_nat (List.length turns) = cap + 1 ->
     exists cm,
       add_messages (new_conversation_manager cap) turns = Ok cm /\
       Z.of_nat (List.length (history cm)) = cap /\
       history cm = tl turns /\
       get_context_messages cm = tl turns) /\
  (forall cm, get_context_messages (reset cm) = []).
Proof.
  intros Hcap. split; [| split].
  - intros h role content. now apply add_message_ok.
  - intros turns Hlen. unfold new_conversation_manager.
    rewrite add_messages_spec by (simpl; lia). eexists. split; [reflexivity |].
    simpl app. simpl history.
    replace (List.length turns - Z.to_nat cap)%nat with 1%nat by lia.
    destruct turns as [| t rest]; [simpl in Hlen; lia |]. simpl.
    rewrite get_context_messages_history. simpl in *. repeat split. lia.
  - reflexivity.
Qed.

Lemma conversation_buffer_fifo_witness :
  exists cm,
    add_messages (new_conversation_manager default_max_history_length) twenty_one_turns
    = Ok cm /\
    Z.of_nat (List.length (history cm)) = default_max_history_length /\
    history cm = tl twenty_one_turns /\
    get_context_messages cm = tl twenty_one_turns.
Proof.
  apply (proj1 (proj2 (conversation_buffer_fifo default_max_history_length
                         ltac:(unfold default_max_history_length; lia)))).
  reflexivity.
Defined.

(** With a capacity below one the first append already fails: there is no
    turn at index 0 to drop. *)
Example add_message_zero_capacity :
  add_message (new_conversation_manager 0) "user" "Hello"
  = Raise (Exn IndexError "pop from empty list").
Proof. reflexivity. Qed.

(** ** The log operations *)

Lemma write_json_in name content dir :
  In (name, Ok content) (write_json name content dir).
Proof.
  induction dir as [| [n c] rest IH]; simpl; [now left |].
  destruct (String.eqb_spec name n) as [-> | _]; [now left | now right].
Qed.

Lemma dir_of_set_dir k d pm : dir_of k (set_dir k d pm) = d.
Proof. destruct k; reflexivity. Qed.

Lemma assoc_set_same k v entries : assoc k (assoc_set k v entries) = Some v.
Proof.
  induction entries as [| [k' v'] rest IH]; simpl.
  - now rewrite String.eqb_refl.
  - destruct (String.eqb_spec k k') as [-> | Hne]; simpl.
    + now rewrite String.eqb_refl.
    + destruct (String.eqb_spec k k'); [contradiction | exact IH].
Qed.

Lemma assoc_set_other k k' v entries :
  k <> k' -> assoc k (assoc_set k' v entries) = assoc k entries.
Proof.
  intros Hne. induction entries as [| [k0 v0] rest IH]; simpl.
  - destruct (String.eqb_spec k k'); [contradiction | reflexivity].
  - destruct (String.eqb_spec k' k0) as [-> | Hne']; simpl.
    + destruct (String.eqb_spec k k0); [contradiction | reflexivity].
    + destruct (String.eqb_spec k k0); [reflexivity | exact IH].
Qed.

Lemma updated_metadata_lists_id section new_item updated metadata metadata' :
  section <> "last_updated" ->
  updated_metadata section new_item updated metadata = Ok metadata' ->
  exists items,
    getitem metadata' section = Ok (VList (items ++ [VStr new_item])) /\
    getitem metadata' "last_updated" = Ok (VStr updated).
Proof.
  intros Hne. unfold updated_metadata.
  destruct metadata as [| | | | s | | entries]; try discriminate.
  - destruct (is_substring section s); discriminate.
  - set (entries' := match assoc section entries with
                     | Some _ => entries
                     | None => assoc_set section (VList []) entries
                     end).
    destruct (assoc section entries') as [[| | | | | items |] |]; try discriminate.
    intros [= <-]. exists items. unfold getitem.
    rewrite assoc_set_other, !assoc_set_same by assumption. split; reflexivity.
Qed.

Lemma section_not_last_updated k : section_of k <> "last_updated".
Proof. destruct k; discriminate. Qed.

Lemma get_fields_dict entries fields :
  exists got, get_fields (VDict entries) fields = Ok got.
Proof.
  induction fields as [| [name default] rest [got IH]]; simpl; [eauto |].
  rewrite IH. simpl. eauto.
Qed.

(** A log operation completes when the details are a dict and the index
    file holds a dict whose section for the kind is missing or a list. *)
Lemma log_completes k st entries pm index :
  project_metadata pm = Some (Ok (VDict index)) ->
  (assoc (section_of k) index = None \/
   exists items, assoc (section_of k) index = Some (VList items)) ->
  exists pm', log_record_of k st (VDict entries) pm = (Ok VNone, pm').
Proof.
  intros Hm Hs. unfold log_record_of.
  destruct (get_fields_dict entries (field_defaults k)) as [got ->].
  unfold _update_project_metadata.
  replace (project_metadata (set_dir k _ pm)) with (project_metadata pm)
    by (destruct k; reflexivity).
  rewrite Hm. simpl.
  destruct Hs as [Hs | [items Hs]]; rewrite Hs.
  - rewrite assoc_set_same. eauto.
  - rewrite Hs. eauto.
Qed.

(** C5, as the code has it: a log operation that completes returns
    [None], never the identifier.  The new identifier is the name of the
    record file and its [id] field, and the last entry of the record
    kind's section in the metadata index. *)
Theorem log_returns_none k st details pm v pm' :
  log_record_of k st details pm = (Ok v, pm') ->
  v = VNone /\
  (exists record,
     In (new_id k st ++ ".json", Ok record) (dir_of k pm') /\
     getitem record "id" = Ok (VStr (new_id k st))) /\
  (exists metadata items,
     project_metadata pm' = Some (Ok metadata) /\
     getitem metadata (section_of k) = Ok (VList (items ++ [VStr (new_id k st)]))).
Proof.
  unfold log_record_of.
  destruct (get_fields details (field_defaults k)) as [fields | e]; [| discriminate].
  set (record := VDict (_ :: _)).
  set (pm1 := set_dir k _ pm).
  unfold _update_project_metadata.
  destruct (project_metadata pm1) as [[metadata | e] |] eqn:Hm; simpl; try discriminate.
  destruct (updated_metadata _ _ _ metadata) as [metadata' | e] eqn:Hu;
    [| discriminate].
  intros [= <- <-]. split; [reflexivity |]. split.
  - exists record. split.
    + replace (dir_of k (set_metadata (Ok metadata') pm1)) with (dir_of k pm1)
        by (destruct k; reflexivity).
      unfold pm1. rewrite dir_of_set_dir. apply write_json_in.
    + reflexivity.
  - destruct (updated_metadata_lists_id _ _ _ _ _ (section_not_last_updated k) Hu)
      as (items & Hi & _).
    exists metadata', items. split; [reflexivity | exact Hi].
Qed.

(** C5 as stated fails: on the sample store each of the three log
    operations completes and returns [None], not the new identifier. *)
Lemma log_returns_id_counterexample :
  new_id Meeting sample_stamp = "meeting_20240301_120000_9f86d081" /\
  fst (log_meeting sample_stamp sample_details sample_pm) = Ok VNone /\
  fst (log_requirement_change sample_stamp sample_details sample_pm) = Ok VNone /\
  fst (log_milestone sample_stamp sample_details sample_pm) = Ok VNone /\
  fst (log_meeting sample_stamp sample_details sample_pm)
  <> Ok (VStr (new_id Meeting sample_stamp)).
Proof. repeat split. vm_compute. discriminate. Qed.

Lemma log_returns_none_witness :
  VNone = VNone /\
  (exists record,
     In (new_id Meeting sample_stamp ++ ".json", Ok record)
        (dir_of Meeting (snd (log_meeting sample_stamp sample_details sample_pm))) /\
     getitem record "id" = Ok (VStr (new_id Meeting sample_stamp))) /\
  (exists metadata items,
     project_metadata (snd (log_meeting sample_stamp sample_details sample_pm))
       = Some (Ok metadata) /\
     getitem metadata (section_of Meeting)
       = Ok (VList (items ++ [VStr (new_id Meeting sample_stamp)]))).
Proof.
  apply (log_returns_none Meeting sample_stamp sample_details sample_pm).
  reflexivity.
Defined.

(** ** The assistant *)

Lemma add_message_history cm role content cm' :
  add_message cm role content = Ok cm' ->
  history cm' =
    ((if max_history_length cm <=? Z.of_nat (List.length (history cm))
      then tl (history cm) else history cm)
     ++ [{| role := role; content := content |}])%list /\
  max_history_length cm' = max_history_length cm.
Proof.
  unfold add_message.
  destruct (max_history_length cm <=? Z.of_nat (List.length (history cm))).
  - destruct (history cm); simpl; [discriminate |]. now intros [= <-].
  - simpl. now intros [= <-].
Qed.

(** Once the buffer holds a turn, appending cannot fail. *)
Lemma add_message_after cm role content cm' role' content' :
  add_message cm role content = Ok cm' ->
  exists cm'', add_message cm' role' content' = Ok cm''.
Proof.
  intros H. apply add_message_history in H as [Hh _].
  unfold add_message. destruct (history cm') as [| t h].
  - exfalso. exact (app_cons_not_nil _ _ _ Hh).
  - destruct (max_history_length cm' <=? _); simpl; eauto.
Qed.

Section Run.

Variable fromisoformat : string -> result datetime.
Variable messages_create : string -> list turn -> result (list content_block).

Abbreviation context_of w now :=
  (get_recent_context fromisoformat (confidant_project w) now 30).
Abbreviation ask cm w now :=
  (ask_provider messages_create (fst (context_of w now)) (get_context_messages cm)).

Ltac run_cases w now query :=
  unfold run;
  destruct (get_recent_context fromisoformat (confidant_project w) now 30)
    as [project_context context_logs];
  cbn [fst snd] in *;
  destruct (add_message (conversation_manager w) "user" query) as [cm1 | e1] eqn:Hadd;
  [ destruct (ask_provider messages_create project_context (get_context_messages cm1))
      as [reply | e2] eqn:Hask | ].

(** C8, as the code has it: [run] returns a string on every path, the
    error text or the provider's reply.  A failed context scan does not
    fail the turn and is not turned into the error text: the turn goes on,
    and the reply the provider gives is returned.  A failure of the append
    to the buffer, of the provider call or of reading its reply is
    returned as the error text and logged as an error.  Otherwise the
    provider's reply is returned, whatever [log_meeting] does; when
    [log_meeting] raises, one warning is logged. *)
Theorem run_reply now st query w :
  (forall e cm ai_response,
     generate_project_summary fromisoformat (confidant_project w) now 30 = Raise e ->
     add_message (conversation_manager w) "user" query = Ok cm ->
     ask cm w now = Ok ai_response ->
     fst (run fromisoformat messages_create now st query w) = ai_response) /\
  (forall e,
     add_message (conversation_manager w) "user" query = Raise e ->
     fst (run fromisoformat messages_create now st query w) = error_reply e /\
     In (ERROR, "Error in agent interaction: " ++ exn_str e)
        (logged (snd (run fromisoformat messages_create now st query w)))) /\
  (forall cm e,
     add_message (conversation_manager w) "user" query = Ok cm ->
     ask cm w now = Raise e ->
     fst (run fromisoformat messages_create now st query w) = error_reply e /\
     In (ERROR, "Error in agent interaction: " ++ exn_str e)
        (logged (snd (run fromisoformat messages_create now st query w)))) /\
  (forall cm ai_response,
     add_message (conversation_manager w) "user" query = Ok cm ->
     ask cm w now = Ok ai_response ->
     fst (run fromisoformat messages_create now st query w) = ai_response /\
     forall log_error pm,
       log_meeting st (session_details query ai_response) (confidant_project w)
       = (Raise log_error, pm) ->
       logged (snd (run fromisoformat messages_create now st query w))
       = emit (logged w ++ snd (context_of w now))
              WARNING ("Could not log meeting: " ++ exn_str log_error)) /\
  ((exists e, fst (run fromisoformat messages_create now st query w) = error_reply e) \/
   (exists cm,
      add_message (conversation_manager w) "user" query = Ok cm /\
      ask cm w now = Ok (fst (run fromisoformat messages_create now st query w)))).
Proof.
  split; [| split; [| split; [| split]]].
  - intros e cm ai_response _ H Hask'. run_cases w now query; try discriminate;
      injection H as <-; rewrite Hask' in Hask; try discriminate.
    injection Hask as <-.
    destruct (add_message_after _ _ _ _ "assistant" ai_response Hadd) as [cm2 ->].
    now destruct (log_meeting st (session_details query ai_response)
                    (confidant_project w)).
  - intros e H. run_cases w now query; try discriminate.
    injection H as <-. split; [reflexivity |].
    cbn [run_failed snd logged]. unfold emit. apply in_or_app. right. now left.
  - intros cm e H Hask'. run_cases w now query; try discriminate;
      injection H as <-; rewrite Hask' in Hask; try discriminate.
    injection Hask as <-. split; [reflexivity |].
    cbn [run_failed snd logged]. unfold emit. apply in_or_app. right. now left.
  - intros cm ai_response H Hask'. run_cases w now query; try discriminate;
      injection H as <-; rewrite Hask' in Hask; try discriminate.
    injection Hask as <-.
    destruct (add_message_after _ _ _ _ "assistant" ai_response Hadd) as [cm2 ->].
    destruct (log_meeting st (session_details query ai_response) (confidant_project w))
      as [outcome pm2] eqn:Hlog.
    split; [reflexivity |].
    intros log_error pm [= -> <-]. reflexivity.
  - run_cases w now query.
    + destruct (add_message_after _ _ _ _ "assistant" reply Hadd) as [cm2 ->].
      destruct (log_meeting st (session_details query reply) (confidant_project w)).
      right. exists cm1. split; [reflexivity | exact Hask].
    + left. exists e2. reflexivity.
    + left. exists e1. reflexivity.
Qed.

(** C9: when the provider call (or the reading of its reply) fails, the
    buffer is left as the append of the user's turn made it: that turn is
    its last entry and nothing is appended after it; the error text goes to
    the caller only. *)
Theorem provider_failure_keeps_user_turn now st query w cm e :
  add_message (conversation_manager w) "user" query = Ok cm ->
  ask cm w now = Raise e ->
  fst (run fromisoformat messages_create now st query w) = error_reply e /\
  conversation_manager (snd (run fromisoformat messages_create now st query w)) = cm /\
  history cm =
    ((if max_history_length (conversation_manager w)
         <=? Z.of_nat (List.length (history (conversation_manager w)))
      then tl (history (conversation_manager w))
      else history (conversation_manager w))
     ++ [{| role := "user"; content := query |}])%list.
Proof.
  intros H Hask'. pose proof (add_message_history _ _ _ _ H) as [Hh _].
  run_cases w now query; try discriminate;
    injection H as <-; rewrite Hask' in Hask; try discriminate.
  injection Hask as <-. repeat split. exact Hh.
Qed.

End Run.

(** ** The assistant on the sample state *)

Example sample_turn :
  run fromisoformat_written replying_provider sample_now sample_stamp
      "Where do we keep the key?" sample_world
  = ("Keep the key in the local store.",
     {| confidant_project :=
          snd (log_meeting sample_stamp
                 (session_details "Where do we keep the key?"
                    "Keep the key in the local store.")
                 sample_pm);
        conversation_manager :=
          {| history :=
               [{| role := "user"; content := "Hello" |};
                {| role := "assistant"; content := "Hi, how can I help?" |};
                {| role := "user"; content := "Where do we keep the key?" |};
                {| role := "assistant"; content := "Keep the key in the local store." |}];
             max_history_length := 20 |};
        logged := [] |}).
Proof. vm_compute. reflexivity. Qed.

(** C8 as stated fails for the context retrieval: with a record file that
    does not hold JSON the scan raises, and [run] still returns the
    provider's reply, not an error text. *)
Lemma context_failure_counterexample :
  generate_project_summary fromisoformat_written (confidant_project corrupt_world)
    sample_now 30 = Raise json_error /\
  fst (run fromisoformat_written replying_provider sample_now sample_stamp
         "Where do we keep the key?" corrupt_world)
  = "Keep the key in the local store." /\
  fst (run fromisoformat_written replying_provider sample_now sample_stamp
         "Where do we keep the key?" corrupt_world)
  <> error_reply json_error.
Proof. repeat split. vm_compute. discriminate. Qed.

Lemma run_reply_witness :
  fst (run fromisoformat_written replying_provider sample_now sample_stamp
         "Where do we keep the key?" broken_index_world)
  = "Keep the key in the local store." /\
  logged (snd (run fromisoformat_written replying_provider sample_now sample_stamp
                 "Where do we keep the key?" broken_index_world))
  = [(WARNING, "Could not log meeting: Expecting value: line 1 column 1 (char 0)")] /\
  fst (run fromisoformat_written replying_provider sample_now sample_stamp
         "Where do we keep the key?" corrupt_world)
  = "Keep the key in the local store.".
Proof.
  destruct (proj1 (proj2 (proj2 (proj2
              (run_reply fromisoformat_written replying_provider sample_now sample_stamp
                 "Where do we keep the key?" broken_index_world))))
              {| history :=
                   [{| role := "user"; content := "Hello" |};
                    {| role := "assistant"; content := "Hi, how can I help?" |};
                    {| role := "user"; content := "Where do we keep the key?" |}];
                 max_history_length := 20 |}
              "Keep the key in the local store." eq_refl eq_refl) as [Hreply Hlog].
  split; [exact Hreply |]. split; [exact (Hlog json_error _ eq_refl) |].
  exact (proj1 (run_reply fromisoformat_written replying_provider sample_now
                  sample_stamp "Where do we keep the key?" corrupt_world)
           json_error
           {| history :=
                [{| role := "user"; content := "Hello" |};
                 {| role := "assistant"; content := "Hi, how can I help?" |};
                 {| role := "user"; content := "Where do we keep the key?" |}];
              max_history_length := 20 |}
           "Keep the key in the local store." eq_refl eq_refl eq_refl).
Defined.

Lemma provider_failure_keeps_user_turn_witness :
  fst (run fromisoformat_written failing_provider sample_now sample_stamp
         "Where do we keep the key?" sample_world)
  = error_reply (Exn APIError "Connection error.") /\
  conversation_manager
    (snd (run fromisoformat_written failing_provider sample_now sample_stamp
            "Where do we keep the key?" sample_world))
  = {| history :=
         [{| role := "user"; content := "Hello" |};
          {| role := "assistant"; content := "Hi, how can I help?" |};
          {| role := "user"; content := "Where do we keep the key?" |}];
       max_history_length := 20 |} /\
  [{| role := "user"; content := "Hello" |};
   {| role := "assistant"; content := "Hi, how can I help?" |};
   {| role := "user"; content := "Where do we keep the key?" |}]
  = [{| role := "user"; content := "Hello" |};
     {| role := "assistant"; content := "Hi, how can I help?" |};
     {| role := "user"; content := "Where do we keep the key?" |}].
Proof.
  exact (provider_failure_keeps_user_turn fromisoformat_written failing_provider
           sample_now sample_stamp "Where do we keep the key?" sample_world
           {| history :=
                [{| role := "user"; content := "Hello" |};
                 {| role := "assistant"; content := "Hi, how can I help?" |};
                 {| role := "user"; content := "Where do we keep the key?" |}];
              max_history_length := 20 |}
           (Exn APIError "Connection error.") eq_refl eq_refl).
Defined.

(* ================================================================== *)
(** * Further properties of the record store and its scan *)

Lemma length_append (a b : string) :
  String.length (a ++ b) = (String.length a + String.length b)%nat.
Proof. induction a as [| c a IH]; simpl; [reflexivity | now rewrite IH]. Qed.

Lemma substring_whole (p : string) : String.substring 0 (String.length p) p = p.
Proof. induction p as [| c p IH]; simpl; [reflexivity | now rewrite IH]. Qed.

Lemma substring_skip (a b : string) m :
  String.substring (String.length a) m (a ++ b) = String.substring 0 m b.
Proof. induction a as [| c a IH]; simpl; [reflexivity | exact IH]. Qed.

Lemma endswith_app (a p : string) : endswith (a ++ p) p = true.
Proof.
  unfold endswith. rewrite length_append.
  replace (String.length a + String.length p - String.length p)%nat
    with (String.length a) by lia.
  rewrite substring_skip, substring_whole, String.eqb_refl.
  rewrite andb_true_r. apply Nat.leb_le. lia.
Qed.

Lemma startswith_app (p b : string) : startswith (p ++ b) p = true.
Proof. unfold startswith. apply prefix_app. now exists b. Qed.

(** The file a log operation writes is one the scan of its directory
    opens. *)
Lemma new_file_scanned k st : scanned k (new_id k st ++ ".json") = true.
Proof.
  destruct k; cbv [scanned new_id id_prefix]; rewrite endswith_app;
    try reflexivity.
  now rewrite append_assoc, startswith_app.
Qed.

Lemma minus_days_returns now days :
  (exists cutoff, minus_days now days = Ok cutoff) <->
  Z.abs days <= 999999999 /\ 0 <= now - days * day_us < max_ticks.
Proof.
  unfold minus_days.
  destruct (Z.ltb_spec days (- 2147483648)) as [Hneg | Hneg];
    [simpl; split; [intros [? [=]] | lia] |].
  destruct (Z.ltb_spec 2147483647 days) as [Hpos | Hpos];
    [simpl; split; [intros [? [=]] | lia] |].
  cbn [orb].
  destruct (Z.ltb_spec 999999999 (Z.abs days)) as [Hbig | Hok].
  - split; [intros [? [=]] | lia].
  - destruct (Z.leb_spec 0 (now - days * day_us)) as [Hlo | Hlo];
      destruct (Z.ltb_spec (now - days * day_us) max_ticks) as [Hhi | Hhi]; simpl;
      (split; [intros [c Hc]; try discriminate; lia | intros; try lia; eauto]).
Qed.

(** ** What a log operation writes *)

Lemma get_fields_merged entries fields :
  get_fields (VDict entries) fields = Ok (merged_fields entries fields).
Proof.
  induction fields as [| [name default] rest IH]; simpl; [reflexivity |].
  now rewrite IH.
Qed.

(** With a dict of details the record file is written first; the outcome
    is that of the index update. *)
Lemma log_record_of_dict k st entries pm :
  log_record_of k st (VDict entries) pm =
  let pm1 := set_dir k (write_json (new_id k st ++ ".json")
                          (written_record k st entries) (dir_of k pm)) pm in
  match _update_project_metadata (section_of k) (new_id k st)
          (last_updated_iso st) pm1 with
  | (Ok _, pm2) => (Ok VNone, pm2)
  | (Raise e, pm2) => (Raise e, pm2)
  end.
Proof. unfold log_record_of. now rewrite get_fields_merged. Qed.

Lemma log_record_of_other k st details pm :
  (forall entries, details <> VDict entries) ->
  exists e, log_record_of k st details pm = (Raise e, pm).
Proof.
  intros Hd. unfold log_record_of.
  destruct details; try (destruct k; simpl; eauto; fail).
  now destruct (Hd entries).
Qed.

Lemma update_keeps_dirs section new_item updated pm outcome pm' :
  _update_project_metadata section new_item updated pm = (outcome, pm') ->
  (forall k, dir_of k pm' = dir_of k pm) /\
  (forall e, outcome = Raise e -> pm' = pm) /\
  (project_metadata pm <> None -> project_metadata pm' <> None).
Proof.
  unfold _update_project_metadata.
  destruct (project_metadata pm) as [content |] eqn:Hm.
  - destruct (metadata <- content ;; updated_metadata section new_item updated metadata)
      as [metadata | e]; intros [= <- <-].
    + split; [now intros [] | split; [discriminate | discriminate]].
    + split; [reflexivity | split; [reflexivity | congruence]].
  - intros [= <- <-]. split; [reflexivity | split; [reflexivity | congruence]].
Qed.

Lemma dir_of_set_dir_other k k' d pm : k' <> k -> dir_of k' (set_dir k d pm) = dir_of k' pm.
Proof. destruct k, k'; simpl; congruence. Qed.

(** The directories after a log operation with a dict of details,
    whatever its outcome. *)
Lemma log_dirs k st entries pm outcome pm' :
  log_record_of k st (VDict entries) pm = (outcome, pm') ->
  dir_of k pm' = write_json (new_id k st ++ ".json") (written_record k st entries)
                   (dir_of k pm) /\
  (forall k', k' <> k -> dir_of k' pm' = dir_of k' pm) /\
  (project_metadata pm <> None -> project_metadata pm' <> None).
Proof.
  rewrite log_record_of_dict. cbv zeta.
  destruct (_update_project_metadata _ _ _ _) as [[u | e] pm2] eqn:Hu;
    intros [= <- <-];
    destruct (update_keeps_dirs _ _ _ _ _ _ Hu) as (Hd & _ & Hm);
    (split; [| split]).
  all: try (rewrite Hd; apply dir_of_set_dir).
  all: try (intros k' Hk; rewrite Hd; now apply dir_of_set_dir_other).
  all: intros Hsome; apply Hm; now destruct k.
Qed.

(** X4: the record a log operation writes for a dict of details has the
    keys [id], [timestamp], [date] and the fields of its kind, nothing
    else.  [id], [timestamp] and [date] are the generated ones even when
    the caller passes values under these names; each field of the kind
    holds the caller's value when there is one and its default otherwise.
    The file is written whether or not the index update succeeds. *)
Theorem log_record_fields k st entries pm :
  exists fields,
    written_record k st entries = VDict fields /\
    In (new_id k st ++ ".json", Ok (VDict fields))
       (dir_of k (snd (log_record_of k st (VDict entries) pm))) /\
    map fst fields = ("id" :: "timestamp" :: "date" :: map fst (field_defaults k)) /\
    assoc "id" fields = Some (VStr (new_id k st)) /\
    assoc "timestamp" fields = Some (VStr (timestamp st)) /\
    assoc "date" fields = Some (VStr (date_iso st)) /\
    forall name default,
      In (name, default) (field_defaults k) ->
      assoc name fields
      = Some (match assoc name entries with Some v => v | None => default end).
Proof.
  destruct (log_record_of k st (VDict entries) pm) as [outcome pm'] eqn:H.
  destruct (log_dirs _ _ _ _ _ _ H) as (Hd & _ & _).
  eexists. split; [reflexivity |].
  split; [simpl snd; rewrite Hd; apply write_json_in |].
  split; [| split; [| split; [| split]]]; try reflexivity.
  - simpl. do 3 f_equal. unfold merged_fields. rewrite map_map. reflexivity.
  - intros name default Hin.
    destruct k; simpl in Hin;
      repeat (destruct Hin as [[= <- <-] | Hin]; [reflexivity |]);
      destruct Hin.
Qed.

Lemma write_json_keeps name content dir n c :
  In (n, c) dir -> n <> name -> In (n, c) (write_json name content dir).
Proof.
  induction dir as [| [n' c'] rest IH]; simpl; [easy |].
  intros [[= -> ->] | Hin] Hne.
  - destruct (String.eqb_spec name n); [congruence | now left].
  - destruct (String.eqb_spec name n'); right; auto.
Qed.

(** X6: a log operation is append-only on the record files: every file
    that was in one of the three directories is still there with the same
    content afterwards, unless it has the name of the new record's file
    in the new record's directory. *)
Theorem log_preserves_files k st details pm k' name content :
  In (name, content) (dir_of k' pm) ->
  k' <> k \/ name <> new_id k st ++ ".json" ->
  In (name, content) (dir_of k' (snd (log_record_of k st details pm))).
Proof.
  intros Hin Hne.
  destruct details as [| b | n | text | s | items | entries];
    try (match goal with
         | |- context [log_record_of k st ?d pm] =>
             destruct (log_record_of_other k st d pm) as [e ->];
             [discriminate | exact Hin]
         end).
  destruct (log_record_of k st (VDict entries) pm) as [outcome pm'] eqn:H.
  destruct (log_dirs _ _ _ _ _ _ H) as (Hd & Ho & _). simpl snd.
  destruct k, k'; try (rewrite Ho by discriminate; exact Hin);
    rewrite Hd; apply write_json_keeps; try assumption;
    destruct Hne as [Hne | Hne]; congruence.
Qed.

(** What [_update_project_metadata] makes of a dict. *)
Lemma updated_metadata_dict section new_item updated index metadata' :
  section <> "last_updated" ->
  updated_metadata section new_item updated (VDict index) = Ok metadata' ->
  exists index',
    metadata' = VDict index' /\
    assoc section index'
    = Some (VList (match assoc section index with
                   | Some (VList items) => items
                   | _ => []
                   end ++ [VStr new_item])) /\
    assoc "last_updated" index' = Some (VStr updated) /\
    forall key, key <> section -> key <> "last_updated" ->
                assoc key index' = assoc key index.
Proof.
  intros Hne. unfold updated_metadata.
  destruct (assoc section index) as [old |] eqn:Hs.
  - rewrite Hs. destruct old; try discriminate. intros [= <-]. eexists.
    split; [reflexivity |]. split; [| split].
    + now rewrite assoc_set_other, assoc_set_same.
    + apply assoc_set_same.
    + intros key H1 H2. now rewrite !assoc_set_other.
  - rewrite assoc_set_same. intros [= <-]. eexists.
    split; [reflexivity |]. split; [| split].
    + now rewrite assoc_set_other, assoc_set_same.
    + apply assoc_set_same.
    + intros key H1 H2. now rewrite !assoc_set_other.
Qed.

Lemma log_index_step k st details pm v pm' :
  log_record_of k st details pm = (Ok v, pm') ->
  exists index index',
    project_metadata pm = Some (Ok (VDict index)) /\
    project_metadata pm' = Some (Ok (VDict index')) /\
    assoc (section_of k) index'
    = Some (VList (match assoc (section_of k) index with
                   | Some (VList items) => items
                   | _ => []
                   end ++ [VStr (new_id k st)])) /\
    assoc "last_updated" index' = Some (VStr (last_updated_iso st)) /\
    forall key, key <> section_of k -> key <> "last_updated" ->
                assoc key index' = assoc key index.
Proof.
  intros H.
  destruct details as [| b | n | text | s | items | entries];
    try (match type of H with
         | log_record_of k st ?d pm = _ =>
             destruct (log_record_of_other k st d pm) as [e He];
             [discriminate | rewrite He in H; discriminate]
         end).
  rewrite log_record_of_dict in H. cbv zeta in H.
  unfold _update_project_metadata in H.
  replace (project_metadata (set_dir k _ pm)) with (project_metadata pm) in H
    by (destruct k; reflexivity).
  destruct (project_metadata pm) as [[metadata | e] |]; try discriminate.
  simpl in H.
  destruct metadata as [| b | n | text | s | items | index]; try discriminate;
    try (simpl in H; destruct (is_substring _ s); discriminate).
  destruct (updated_metadata _ _ _ (VDict index)) as [metadata' | e] eqn:Hu;
    [| discriminate].
  injection H as _ <-.
  destruct (updated_metadata_dict _ _ _ _ _ (section_not_last_updated k) Hu)
    as (index' & -> & H1 & H2 & H3).
  exists index, index'. repeat split; assumption.
Qed.

(** X7: a log operation that completes appends the new identifier to the
    end of its kind's section of the index, creating the section when it
    is missing, and sets [last_updated]; the identifiers already listed
    and every other key of the index keep their values. *)
Theorem log_index_append k st details pm v pm' :
  log_record_of k st details pm = (Ok v, pm') ->
  exists index index',
    project_metadata pm = Some (Ok (VDict index)) /\
    project_metadata pm' = Some (Ok (VDict index')) /\
    assoc (section_of k) index'
    = Some (VList (match assoc (section_of k) index with
                   | Some (VList items) => items
                   | _ => []
                   end ++ [VStr (new_id k st)])) /\
    assoc "last_updated" index' = Some (VStr (last_updated_iso st)) /\
    forall key, key <> section_of k -> key <> "last_updated" ->
                assoc key index' = assoc key index.
Proof.
  intros H.
  destruct details as [| b | n | text | s | items | entries];
    try (match type of H with
         | log_record_of k st ?d pm = _ =>
             destruct (log_record_of_other k st d pm) as [e He];
             [discriminate | rewrite He in H; discriminate]
         end).
  rewrite log_record_of_dict in H. cbv zeta in H.
  unfold _update_project_metadata in H.
  replace (project_metadata (set_dir k _ pm)) with (project_metadata pm) in H
    by (destruct k; reflexivity).
  destruct (project_metadata pm) as [[metadata | e] |]; try discriminate.
  simpl in H.
  destruct metadata as [| b | n | text | s | items | index]; try discriminate;
    try (simpl in H; destruct (is_substring _ s); discriminate).
  destruct (updated_metadata _ _ _ (VDict index)) as [metadata' | e] eqn:Hu;
    [| discriminate].
  injection H as _ <-.
  destruct (updated_metadata_dict _ _ _ _ _ (section_not_last_updated k) Hu)
    as (index' & -> & H1 & H2 & H3).
  exists index, index'. repeat split; assumption.
Qed.

(** X8: what a log operation does when it cannot complete, the write of
    the record file being taken to go through.  With details that are not
    a dict it raises before anything is written.  With a dict of details
    and an index that is missing, does not decode, or decodes to something
    the update cannot extend, it raises the exception of the index update
    after the record file was written: the record is on disk, listed
    nowhere, and the index file is as it was. *)
Theorem log_stops_at_index k st details pm :
  ((forall entries, details <> VDict entries) ->
   exists e, log_record_of k st details pm = (Raise e, pm)) /\
  (forall entries e,
     details = VDict entries ->
     (project_metadata pm = None /\
      e = Exn OSError ("[Errno 2] No such file or directory: "
                       ++ repr_str (project_metadata_path pm))) \/
     project_metadata pm = Some (Raise e) \/
     (exists metadata,
        project_metadata pm = Some (Ok metadata) /\
        updated_metadata (section_of k) (new_id k st) (last_updated_iso st) metadata
        = Raise e) ->
     log_record_of k st details pm
     = (Raise e,
        set_dir k (write_json (new_id k st ++ ".json")
                     (written_record k st entries) (dir_of k pm)) pm) /\
     In (new_id k st ++ ".json", Ok (written_record k st entries))
        (dir_of k (snd (log_record_of k st details pm))) /\
     project_metadata (snd (log_record_of k st details pm)) = project_metadata pm).
Proof.
  split.
  - intros Hd. apply log_record_of_other. exact Hd.
  - intros entries e -> Hindex.
    assert (Hm : forall d, project_metadata (set_dir k d pm) = project_metadata pm)
      by (intros d; destruct k; reflexivity).
    assert (Hp : forall d, project_metadata_path (set_dir k d pm)
                           = project_metadata_path pm)
      by (intros d; destruct k; reflexivity).
    assert (E : log_record_of k st (VDict entries) pm
                = (Raise e,
                   set_dir k (write_json (new_id k st ++ ".json")
                                (written_record k st entries) (dir_of k pm)) pm)).
    { rewrite log_record_of_dict. cbv zeta. unfold _update_project_metadata.
      rewrite Hm, Hp.
      destruct Hindex as [[-> ->] | [-> | (metadata & -> & Hu)]];
        [reflexivity | reflexivity |].
      cbn [bind]. now rewrite Hu. }
    rewrite E. cbn [snd]. split; [reflexivity |]. split.
    + rewrite dir_of_set_dir. apply write_json_in.
    + apply Hm.
Qed.

Ltac unfold_generate := unfold generate_project_summary.
Ltac unfold_later := unfold later_than.

Section ScanMore.

Variable fromisoformat : string -> result datetime.

Abbreviation record_date := (record_date fromisoformat).
Abbreviation collect := (collect fromisoformat).
Abbreviation generate_project_summary := (generate_project_summary fromisoformat).
Abbreviation later_than := (later_than fromisoformat).
Abbreviation usable := (usable fromisoformat).

Lemma collect_ok_usable keep t dir :
  forall acc l, collect keep (naive t) dir acc = Ok l ->
  forall name content, In (name, content) dir -> keep name = true -> usable content.
Proof.
  induction dir as [| [n c] rest IH]; simpl; intros acc l H name content Hin K;
    [easy |].
  destruct (keep n) eqn:Kn.
  - bind_inv H. bind_inv H. bind_inv H. destruct Hin as [[= -> ->] | Hin].
    + exists x, x0. repeat split; try assumption.
      unfold dt_gt in Hx1. simpl in Hx1. now destruct (utcoffset x0).
    + eauto.
  - destruct Hin as [[= -> ->] | Hin]; [congruence | eauto].
Qed.

(** X1: [generate_project_summary] returns a Summary exactly when the cutoff
    [now - days] is a datetime Python can represent and every file the
    scan opens decodes to a record whose [date] parses to a naive
    datetime.  One file that fails this, in any of the three directories,
    and the call raises. *)
Theorem scan_returns_iff pm now days :
  (exists s, generate_project_summary pm now days = Ok s) <->
  (Z.abs days <= 999999999 /\ 0 <= now - days * day_us < max_ticks) /\
  (forall k name content,
     In (name, content) (dir_of k pm) -> scanned k name = true -> usable content).
Proof.
  split.
  - intros [s H]. destruct (generate_ok fromisoformat _ _ _ _ H) as [Hc Hk]. split.
    + apply minus_days_returns. eauto.
    + intros k name content Hin K.
      exact (collect_ok_usable _ _ _ _ _ (Hk k) name content Hin K).
  - intros [Hc W]. apply minus_days_returns in Hc as [cutoff Hc].
    exact (generate_returns fromisoformat pm now days cutoff Hc W).
Qed.

Lemma collect_skips keep cutoff name content l2 :
  keep name = false ->
  forall l1 acc,
    collect keep cutoff (l1 ++ (name, content) :: l2)%list acc
    = collect keep cutoff (l1 ++ l2)%list acc.
Proof.
  intros K. induction l1 as [| [n c] l1 IH]; intros acc; simpl.
  - now rewrite K.
  - destruct (keep n); [| apply IH].
    destruct c as [r | e]; simpl; [| reflexivity].
    destruct (record_date r) as [d | e]; simpl; [| reflexivity].
    destruct (dt_gt d cutoff) as [b | e]; simpl; [apply IH | reflexivity].
Qed.

(** X2: a file whose name fails the scan's filter ([.json], and in the
    milestone directory the [milestone_] prefix) is never opened: with or
    without it, whatever it holds, the scan gives the same outcome. *)
Theorem scan_ignores_unscanned_files pm now days k name content before after :
  scanned k name = false ->
  generate_project_summary
    (set_dir k (before ++ (name, content) :: after)%list pm) now days
  = generate_project_summary (set_dir k (before ++ after)%list pm) now days.
Proof.
  intros K. unfold_generate.
  destruct (minus_days now days) as [cutoff | e]; simpl; [| reflexivity].
  destruct k; simpl; now rewrite collect_skips.
Qed.

Lemma collect_flat_map keep cutoff dir :
  forall acc l, collect keep cutoff dir acc = Ok l ->
  l = (acc ++ flat_map (fun f => match snd f with
                                 | Ok record =>
                                     if keep (fst f) && later_than cutoff record
                                     then [record] else []
                                 | Raise _ => []
                                 end) dir)%list.
Proof.
  induction dir as [| [name content] rest IH]; simpl; intros acc l H.
  - injection H as <-. now rewrite app_nil_r.
  - destruct (keep name); simpl.
    + bind_inv H. subst content. bind_inv H. bind_inv H.
      rewrite (IH _ _ H). unfold_later. rewrite Hx. cbn [bind]. rewrite Hx0.
      destruct x1; [now rewrite <- app_assoc | reflexivity].
    + rewrite (IH _ _ H). now destruct content.
Qed.

(** X3: each list of the Summary holds, in directory order and once per
    file, the records of the files the scan opens whose date is later
    than the cutoff. *)
Theorem scan_lists_in_directory_order pm now days s k :
  generate_project_summary pm now days = Ok s ->
  records_of k s =
  flat_map (fun f => match snd f with
                     | Ok record =>
                         if scanned k (fst f)
                            && later_than (naive (now - days * day_us)) record
                         then [record] else []
                     | Raise _ => []
                     end) (dir_of k pm).
Proof.
  intros H. destruct (generate_ok fromisoformat _ _ _ _ H) as [_ Hc].
  exact (collect_flat_map _ _ _ _ _ (Hc k)).
Qed.

Lemma written_record_scanned k st entries pm now days s d :
  generate_project_summary (snd (log_record_of k st (VDict entries) pm)) now days
  = Ok s ->
  fromisoformat (date_iso st) = Ok d ->
  In (written_record k st entries) (records_of k s)
  <-> now - days * day_us < ticks d.
Proof.
  intros H Hd.
  destruct (log_record_of k st (VDict entries) pm) as [outcome pm'] eqn:Hlog.
  destruct (log_dirs _ _ _ _ _ _ Hlog) as (Hdir & _ & _). simpl snd in H.
  assert (Hdate : record_date (written_record k st entries) = Ok d) by exact Hd.
  rewrite (in_summary fromisoformat _ _ _ _ k _ H). split.
  - intros (name & d' & _ & _ & Hd' & _ & Hlt). congruence.
  - intros Hlt. exists (new_id k st ++ ".json"), d.
    assert (Hin : In (new_id k st ++ ".json", Ok (written_record k st entries))
                     (dir_of k pm'))
      by (rewrite Hdir; apply write_json_in).
    repeat split; try assumption.
    + apply new_file_scanned.
    + destruct (generate_ok fromisoformat _ _ _ _ H) as [_ Hc].
      exact (collect_ok_naive fromisoformat _ _ _ _ _ _ _ _ (Hc k) Hin
               (new_file_scanned k st) Hdate).
Qed.

(** X5: a record logged from a dict of details is picked up by the scans
    that follow, whether or not the index update succeeded: whenever a
    later scan returns, the record as written is in its kind's list if
    and only if the [date] it was stamped with is later than that scan's
    cutoff. *)
Theorem log_then_scan k st entries pm now days s d :
  generate_project_summary (snd (log_record_of k st (VDict entries) pm)) now days
  = Ok s ->
  fromisoformat (date_iso st) = Ok d ->
  In (written_record k st entries) (records_of k s)
  <-> now - days * day_us < ticks d.
Proof.
  intros H Hd.
  destruct (log_record_of k st (VDict entries) pm) as [outcome pm'] eqn:Hlog.
  destruct (log_dirs _ _ _ _ _ _ Hlog) as (Hdir & _ & _). simpl snd in H.
  assert (Hdate : record_date (written_record k st entries) = Ok d) by exact Hd.
  rewrite (in_summary fromisoformat _ _ _ _ k _ H). split.
  - intros (name & d' & _ & _ & Hd' & _ & Hlt). congruence.
  - intros Hlt. exists (new_id k st ++ ".json"), d.
    assert (Hin : In (new_id k st ++ ".json", Ok (written_record k st entries))
                     (dir_of k pm'))
      by (rewrite Hdir; apply write_json_in).
    repeat split; try assumption.
    + apply new_file_scanned.
    + destruct (generate_ok fromisoformat _ _ _ _ H) as [_ Hc].
      exact (collect_ok_naive fromisoformat _ _ _ _ _ _ _ _ (Hc k) Hin
               (new_file_scanned k st) Hdate).
Qed.

End ScanMore.

(** ** The category filter and the context text *)

Lemma is_substring_trans a b c :
  is_substring a b = true -> is_substring b c = true -> is_substring a c = true.
Proof.
  rewrite !is_substring_spec. intros (p1 & q1 & ->) (p2 & q2 & ->).
  exists (p2 ++ p1), (q1 ++ q2). now rewrite !append_assoc.
Qed.

Lemma filter_all {A} (f : A -> bool) (l : list A) :
  (forall x, In x l -> f x = true) -> filter f l = l.
Proof.
  induction l as [| x l IH]; simpl; intros H; [reflexivity |].
  rewrite (H x (or_introl eq_refl)), IH; [reflexivity |].
  intros y Hy. apply H. now right.
Qed.

(** The text of a dict holds the text of each of its keys. *)
Lemma repr_dict_contains_key k v entries :
  In (k, v) entries ->
  exists pre post, repr (VDict entries) = pre ++ repr_str k ++ post.
Proof.
  intros Hin.
  pose (item := fun kv : string * value => repr_str (fst kv) ++ ": " ++ repr (snd kv)).
  destruct (join_contains ", " (item (k, v)) (map item entries)) as (pre & post & E).
  { now apply in_map. }
  exists ("{" ++ pre), (": " ++ repr v ++ post ++ "}").
  change (repr (VDict entries)) with ("{" ++ join ", " (map item entries) ++ "}").
  rewrite E. unfold item. cbn [fst snd].
  generalize (repr_str k) (repr v). intros a b. now rewrite !append_assoc.
Qed.

Lemma add_lines_ok line items :
  forall context text,
    add_lines line items context = Ok text ->
    exists lines,
      Forall2 (fun item l => line item = Ok l) items lines /\
      text = context ++ fold_right append EmptyString lines.
Proof.
  induction items as [| item rest IH]; simpl; intros context text H.
  - injection H as <-. exists []. split; [constructor | now rewrite append_nil].
  - bind_inv H. destruct (IH _ _ H) as (lines & HF & ->).
    exists (x :: lines). split; [now constructor |].
    simpl. now rewrite append_assoc.
Qed.

Lemma add_lines_raises line items item e :
  In item items -> line item = Raise e ->
  forall context, exists e', add_lines line items context = Raise e'.
Proof.
  induction items as [| i rest IH]; simpl; intros Hin He context; [easy |].
  destruct Hin as [-> | Hin].
  - rewrite He. simpl. eauto.
  - destruct (line i); simpl; eauto.
Qed.

Ltac unfold_format := unfold format_context.
Ltac unfold_format_in H := unfold format_context in H.

Section ContextMore.

Variable fromisoformat : string -> result datetime.

Abbreviation generate_project_summary := (generate_project_summary fromisoformat).
Abbreviation get_recent_context := (get_recent_context fromisoformat).
Abbreviation get_category_summary := (get_category_summary fromisoformat).

(** X9: the category filter narrows with its argument: when [c1], letter
    case set aside, occurs inside [c2], every record returned for [c2]
    under a key is returned for [c1] under that key. *)
Theorem category_narrowing pm now c1 c2 key records1 records2 :
  is_substring (lower c1) (lower c2) = true ->
  lookup key (fst (get_category_summary pm now c1)) = Some records1 ->
  lookup key (fst (get_category_summary pm now c2)) = Some records2 ->
  incl records2 records1.
Proof.
  intros Hsub. unfold_context.
  destruct (generate_project_summary pm now 30) as [s | e]; simpl; [| discriminate].
  assert (F : forall l, incl (filter (matches_category c2) l)
                             (filter (matches_category c1) l)).
  { intros l r Hin. apply filter_In in Hin as [Hin Hm]. apply filter_In.
    split; [exact Hin |]. unfold matches_category in *.
    exact (is_substring_trans _ _ _ Hsub Hm). }
  destruct (String.eqb key "meetings"); [intros [= <-] [= <-]; apply F |].
  destruct (String.eqb key "requirement_changes"); [intros [= <-] [= <-]; apply F |].
  destruct (String.eqb key "milestones"); [intros [= <-] [= <-]; apply F |].
  discriminate.
Qed.

(** X10: the filter reads the text of the whole record, key names
    included.  The empty category, and the category ["date"], the name
    of a key every scanned record has, select every record of the
    thirty-day Summary. *)
Theorem category_matches_everything pm now summary category k :
  generate_project_summary pm now 30 = Ok summary ->
  category = EmptyString \/ category = "date" ->
  lookup (summary_key k) (fst (get_category_summary pm now category))
  = Some (records_of k summary).
Proof.
  intros H Hc.
  assert (L : lookup (summary_key k) (fst (get_category_summary pm now category))
              = Some (filter (matches_category category) (records_of k summary))).
  { unfold_context. rewrite H. destruct k; reflexivity. }
  rewrite L. f_equal. apply filter_all. intros r Hin.
  destruct Hc as [-> | ->]; unfold matches_category.
  - simpl lower. rewrite is_substring_unfold. now destruct (lower (str r)).
  - apply (in_summary fromisoformat _ _ _ _ k r H) in Hin
      as (name & d & _ & _ & Hd & _).
    unfold record_date in Hd. bind_inv Hd.
    destruct r as [| b | n | text | s0 | items | entries]; try discriminate.
    unfold getitem in Hx. destruct (assoc "date" entries) as [v |] eqn:Ha;
      [| discriminate].
    destruct (repr_dict_contains_key _ _ _ (assoc_in _ _ _ Ha)) as (pre & post & E).
    change (str (VDict entries)) with (repr (VDict entries)).
    rewrite E, !lower_app. apply is_substring_app.
    apply is_substring_spec. now exists "'", "'".
Qed.

(** X11: when the context is generated, its text is the header line, then
    under each of the three labels exactly one line per record of the
    Summary, in the Summary's order, and nothing else. *)
Theorem context_lines pm now days s text :
  generate_project_summary pm now days = Ok s ->
  format_context s days = Ok text ->
  get_recent_context pm now days = (text, []) /\
  exists meeting_lines change_lines milestone_lines,
    Forall2 (fun r l => meeting_line r = Ok l) (meetings s) meeting_lines /\
    Forall2 (fun r l => req_change_line r = Ok l) (requirement_changes s) change_lines /\
    Forall2 (fun r l => milestone_line r = Ok l) (milestones s) milestone_lines /\
    text =
      "Recent Project Context (Last " ++ str_int days ++ " days):" ++ nl ++ nl
      ++ "Meetings:" ++ nl
      ++ fold_right append EmptyString meeting_lines
      ++ nl ++ "Requirement Changes:" ++ nl
      ++ fold_right append EmptyString change_lines
      ++ nl ++ "Milestones:" ++ nl
      ++ fold_right append EmptyString milestone_lines.
Proof.
  intros H Hf. split.
  - unfold_context. now rewrite H; simpl; rewrite Hf.
  - unfold_format_in Hf. cbv zeta in Hf.
    bind_inv Hf. bind_inv Hf.
    destruct (add_lines_ok _ _ _ _ Hx) as (ms & HFm & ->).
    destruct (add_lines_ok _ _ _ _ Hx0) as (rs & HFr & ->).
    destruct (add_lines_ok _ _ _ _ Hf) as (ls & HFl & ->).
    exists ms, rs, ls. repeat split; try assumption.
    now rewrite !append_assoc.
Qed.

(** X12: a single record whose list field cannot be joined spoils the
    whole context: when a meeting of the Summary has a [key_discussions]
    value, or a requirement change a [changes] value, that [', '.join]
    rejects, [get_recent_context] returns the error text and none of the
    other records. *)
Theorem context_spoiled_by_one_field pm now days s k field entries v e :
  generate_project_summary pm now days = Ok s ->
  (k = Meeting /\ field = "key_discussions") \/ (k = Requirement /\ field = "changes") ->
  In (VDict entries) (records_of k s) ->
  assoc field entries = Some v ->
  py_join ", " v = Raise e ->
  exists e',
    get_recent_context pm now days
    = ("Unable to generate project context. Error: " ++ exn_str e',
       [(ERROR, "Error generating recent context: " ++ exn_str e')]).
Proof.
  intros H Hk Hin Ha Hj.
  assert (exists e', format_context s days = Raise e') as [e' He'].
  { unfold_format. cbv zeta.
    destruct Hk as [[-> ->] | [-> ->]]; simpl in Hin.
    - assert (Hl : meeting_line (VDict entries) = Raise e).
      { unfold meeting_line. simpl. rewrite Ha. simpl. now rewrite Hj. }
      destruct (add_lines_raises meeting_line _ _ e Hin Hl
                  (("Recent Project Context (Last " ++ str_int days ++ " days):"
                    ++ nl ++ nl) ++ "Meetings:" ++ nl)) as [e' He'].
      exists e'. now rewrite He'.
    - destruct (add_lines meeting_line (meetings s) _) as [context |]; cbn [bind];
        [| eauto].
      assert (Hl : req_change_line (VDict entries) = Raise e).
      { unfold req_change_line. simpl. rewrite Ha. simpl. now rewrite Hj. }
      destruct (add_lines_raises req_change_line _ _ e Hin Hl
                  (context ++ nl ++ "Requirement Changes:" ++ nl)) as [e' He'].
      exists e'. now rewrite He'. }
  exists e'. unfold_context. rewrite H. simpl. now rewrite He'.
Qed.

End ContextMore.

(** ** Construction and bootstrap *)

(** The bootstrap never removes the metadata file. *)
Lemma bootstrap_keeps_metadata st1 st2 st3 pm :
  project_metadata pm <> None ->
  project_metadata (fst (initialize_project_context st1 st2 st3 pm)) <> None.
Proof.
  unfold initialize_project_context.
  destruct (all_empty pm); [| auto].
  unfold log_meeting, log_requirement_change, log_milestone, seed_meeting,
    seed_requirement, seed_milestone.
  destruct (log_record_of Meeting st1 _ pm) as [o1 pm1] eqn:H1.
  destruct (log_dirs _ _ _ _ _ _ H1) as (_ & _ & M1).
  destruct o1 as [v1 | e1]; [| exact M1].
  destruct (log_record_of Requirement st2 _ pm1) as [o2 pm2] eqn:H2.
  destruct (log_dirs _ _ _ _ _ _ H2) as (_ & _ & M2).
  destruct o2 as [v2 | e2]; [| auto].
  destruct (log_record_of Milestone st3 _ pm2) as [o3 pm3] eqn:H3.
  destruct (log_dirs _ _ _ _ _ _ H3) as (_ & _ & M3).
  destruct o3 as [v3 | e3]; auto.
Qed.

(** X13: when a construction of the [ProjectManager] has left an entry in
    one of the three record directories, constructing it a second time
    over what the first left on disk changes nothing and logs nothing:
    the metadata file is not rewritten and no seed record is added, be it
    that the first bootstrap stopped at an index update. *)
Theorem init_idempotent created1 updated1 s1 s2 s3 created2 updated2 s4 s5 s6 disk :
  all_empty (fst (ProjectManager_init created1 updated1 s1 s2 s3 disk)) = false ->
  ProjectManager_init created2 updated2 s4 s5 s6
    (fst (ProjectManager_init created1 updated1 s1 s2 s3 disk))
  = (fst (ProjectManager_init created1 updated1 s1 s2 s3 disk), []).
Proof.
  unfold ProjectManager_init.
  set (pm1 := _initialize_project_metadata created1 updated1 disk).
  pose proof (bootstrap_keeps_metadata s1 s2 s3 pm1) as M.
  set (pm2 := fst (initialize_project_context s1 s2 s3 pm1)) in *.
  intros E.
  assert (M1 : project_metadata pm1 <> None).
  { unfold pm1, _initialize_project_metadata.
    destruct (project_metadata disk) eqn:Hd; [congruence | discriminate]. }
  assert (Hsame : _initialize_project_metadata created2 updated2 pm2 = pm2).
  { unfold _initialize_project_metadata.
    destruct (project_metadata pm2); [reflexivity | now destruct (M M1)]. }
  rewrite Hsame. unfold initialize_project_context. now rewrite E.
Qed.

(** X14: when the metadata file is there but does not decode, the
    construction over an empty store writes the seed meeting and stops at
    its index update: one error is logged, the seed requirement and the
    seed milestone are never written, and the metadata file stays as it
    was. *)
Theorem init_partial_bootstrap created updated s1 s2 s3 disk e :
  all_empty disk = true ->
  project_metadata disk = Some (Raise e) ->
  exists record,
    ProjectManager_init created updated s1 s2 s3 disk
    = (set_dir Meeting [(new_id Meeting s1 ++ ".json", Ok record)] disk,
       [(ERROR, "Error initializing project context: " ++ exn_str e)]) /\
    getitem record "id" = Ok (VStr (new_id Meeting s1)).
Proof.
  intros E M. unfold ProjectManager_init, _initialize_project_metadata.
  rewrite M. unfold initialize_project_context. rewrite E.
  unfold log_meeting, seed_meeting. rewrite log_record_of_dict. cbv zeta.
  unfold _update_project_metadata. cbn [set_dir project_metadata]. rewrite M.
  cbn [bind]. eexists. split.
  - unfold all_empty in E.
    destruct (meetings_dir disk) eqn:Hm; [| discriminate]. cbn [dir_of].
    rewrite Hm. reflexivity.
  - reflexivity.
Qed.

Section FreshProject.

Variable fromisoformat : string -> result datetime.

(** X15: constructing the [ProjectManager] over a brand-new project (no
    metadata file, three empty directories) logs nothing, writes one seed
    record of each kind and lists each identifier in the index; a scan
    whose cutoff is earlier than the three stamped dates then returns
    exactly these three records, one per category. *)
Theorem init_fresh_project created updated s1 s2 s3 disk now days cutoff d1 d2 d3 :
  all_empty disk = true ->
  project_metadata disk = None ->
  minus_days now days = Ok cutoff ->
  fromisoformat (date_iso s1) = Ok (naive d1) ->
  fromisoformat (date_iso s2) = Ok (naive d2) ->
  fromisoformat (date_iso s3) = Ok (naive d3) ->
  ticks cutoff < d1 -> ticks cutoff < d2 -> ticks cutoff < d3 ->
  let pm := fst (ProjectManager_init created updated s1 s2 s3 disk) in
  snd (ProjectManager_init created updated s1 s2 s3 disk) = [] /\
  (exists index,
     project_metadata pm = Some (Ok (VDict index)) /\
     assoc "created_at" index = Some (VStr created) /\
     assoc "last_updated" index = Some (VStr (last_updated_iso s3)) /\
     assoc "meetings" index = Some (VList [VStr (new_id Meeting s1)]) /\
     assoc "requirements" index = Some (VList [VStr (new_id Requirement s2)]) /\
     assoc "milestones" index = Some (VList [VStr (new_id Milestone s3)])) /\
  (exists s,
     generate_project_summary fromisoformat pm now days = Ok s /\
     meetings s = [written_record Meeting s1
                     (entries_of seed_meeting)] /\
     requirement_changes s
     = [written_record Requirement s2
          (entries_of seed_requirement)] /\
     milestones s
     = [written_record Milestone s3
          (entries_of seed_milestone)]).
Proof.
  intros E M Hc H1 H2 H3 L1 L2 L3.
  destruct disk as [pname ppath md rd ld meta]. unfold all_empty in E.
  simpl in E, M. subst meta.
  destruct md; [| discriminate]. destruct rd; [| discriminate].
  destruct ld; [| discriminate]. clear E.
  set (disk := {| project_name := pname; project_metadata_path := ppath;
                  meetings_dir := []; requirements_dir := []; logs_dir := [];
                  project_metadata := None |}).
  assert (Hinit :
    ProjectManager_init created updated s1 s2 s3 disk =
    ({| project_name := pname; project_metadata_path := ppath;
        meetings_dir :=
          [(new_id Meeting s1 ++ ".json",
            Ok (written_record Meeting s1
                  (entries_of seed_meeting)))];
        requirements_dir :=
          [(new_id Requirement s2 ++ ".json",
            Ok (written_record Requirement s2
                  (entries_of seed_requirement)))];
        logs_dir :=
          [(new_id Milestone s3 ++ ".json",
            Ok (written_record Milestone s3
                  (entries_of seed_milestone)))];
        project_metadata :=
          Some (Ok (VDict [("project_name", VStr pname);
                           ("created_at", VStr created);
                           ("last_updated", VStr (last_updated_iso s3));
                           ("status", VStr "Active");
                           ("milestones", VList [VStr (new_id Milestone s3)]);
                           ("key_objectives", VList []);
                           ("meetings", VList [VStr (new_id Meeting s1)]);
                           ("requirements", VList [VStr (new_id Requirement s2)])]))
     |}, [])) by reflexivity.
  cbv zeta. rewrite Hinit. cbn [fst snd]. split; [reflexivity |]. split.
  - eexists. split; [reflexivity |]. repeat split.
  - unfold generate_project_summary. rewrite Hc. cbn [bind].
    cbn [meetings_dir requirements_dir logs_dir collect].
    rewrite (new_file_scanned Meeting), (new_file_scanned Requirement),
      (new_file_scanned Milestone).
    assert (G : forall d, ticks cutoff < d -> dt_gt (naive d) cutoff = Ok true).
    { intros d Hd. pose proof (minus_days_ok _ _ _ Hc) as ->.
      apply dt_gt_naive. split; [reflexivity | exact Hd]. }
    cbn [bind].
    change (record_date fromisoformat (written_record Meeting s1 _))
      with (fromisoformat (date_iso s1)).
    change (record_date fromisoformat (written_record Requirement s2 _))
      with (fromisoformat (date_iso s2)).
    change (record_date fromisoformat (written_record Milestone s3 _))
      with (fromisoformat (date_iso s3)).
    rewrite H1, H2, H3. cbn [bind]. rewrite !G by assumption. cbn [bind app].
    eexists. split; [reflexivity |]. repeat split.
Qed.

End FreshProject.

(** ** The buffer and the assistants *)

(** X16: at any capacity of one or more, and from any buffer within its
    capacity, a run of appends leaves the last [max_history_length] turns
    of everything appended so far, oldest first; the buffer never grows
    past its capacity and no append fails. *)
Theorem buffer_keeps_last_turns cap h turns :
  1 <= cap ->
  Z.of_nat (List.length h) <= cap ->
  exists cm,
    add_messages {| history := h; max_history_length := cap |} turns = Ok cm /\
    max_history_length cm = cap /\
    history cm = skipn (List.length (h ++ turns) - Z.to_nat cap) (h ++ turns) /\
    Z.of_nat (List.length (history cm))
    = Z.min cap (Z.of_nat (List.length h + List.length turns)).
Proof.
  intros Hcap Hh. rewrite add_messages_spec by assumption.
  eexists. split; [reflexivity |]. split; [reflexivity |]. split; [reflexivity |].
  simpl history. rewrite length_skipn, length_app. lia.
Qed.

Lemma length_take n s : (String.length (take n s) <= n)%nat.
Proof.
  unfold take. revert s. induction n as [| n IH]; intros s.
  - destruct s; simpl; lia.
  - destruct s as [| c s]; simpl; [lia |]. specialize (IH s). lia.
Qed.

Lemma take_short n s : (String.length s <= n)%nat -> take n s = s.
Proof.
  unfold take. revert s. induction n as [| n IH]; intros s Hs.
  - destruct s; [reflexivity | simpl in Hs; lia].
  - destruct s as [| c s]; simpl; [reflexivity |].
    rewrite IH; [reflexivity | simpl in Hs; lia].
Qed.

Lemma is_substring_app_l n h post :
  is_substring n h = true -> is_substring n (h ++ post) = true.
Proof. intros H. exact (is_substring_app n EmptyString h post H). Qed.

Lemma add_lines_contains line items item :
  In item items ->
  forall context text,
    add_lines line items context = Ok text ->
    exists l, line item = Ok l /\ is_substring l text = true.
Proof.
  induction items as [| i rest IH]; simpl; intros Hin context text H; [easy |].
  bind_inv H. destruct Hin as [-> | Hin].
  - exists x. split; [assumption |].
    destruct (add_lines_ok _ _ _ _ H) as (lines & _ & ->).
    apply is_substring_spec. exists context, (fold_right append EmptyString lines).
    now rewrite append_assoc.
  - eauto.
Qed.

Section AssistantMore.

Variable fromisoformat : string -> result datetime.
Variable messages_create : string -> list turn -> result (list content_block).

Abbreviation dev_run := (run fromisoformat messages_create).
Abbreviation context_of pm now := (fst (get_recent_context fromisoformat pm now 30)).

(** What a successful turn of [DevAssistant.run] leaves behind. *)
Lemma run_success now st query pm cm logs cm1 reply :
  add_message cm "user" query = Ok cm1 ->
  ask_provider messages_create (context_of pm now) (get_context_messages cm1)
  = Ok reply ->
  exists cm2,
    add_message cm1 "assistant" reply = Ok cm2 /\
    fst (dev_run now st query
           {| confidant_project := pm; conversation_manager := cm; logged := logs |})
    = reply /\
    conversation_manager
      (snd (dev_run now st query
              {| confidant_project := pm; conversation_manager := cm;
                 logged := logs |}))
    = cm2 /\
    confidant_project
      (snd (dev_run now st query
              {| confidant_project := pm; conversation_manager := cm;
                 logged := logs |}))
    = snd (log_meeting st (session_details query reply) pm).
Proof.
  intros Hadd Hask.
  destruct (add_message_after _ _ _ _ "assistant" reply Hadd) as [cm2 Hadd2].
  exists cm2. split; [exact Hadd2 |]. unfold run. cbn [confidant_project
    conversation_manager logged].
  destruct (get_recent_context fromisoformat pm now 30) as [ctx ctx_logs].
  cbn [fst] in Hask. rewrite Hadd, Hask, Hadd2.
  destruct (log_meeting st (session_details query reply) pm) as [outcome pm'].
  repeat split.
Qed.

(** X17: a turn of [DevAssistant.run] that gets a reply sends the
    provider the last [max_history_length] turns, the new user turn
    included, returns the reply, and leaves the buffer with the last
    [max_history_length] turns of the old buffer followed by the user turn
    and the assistant turn.  It also writes a meeting record whose
    [key_discussions] is the query and whose single action item is the
    first 200 characters of the reply followed by three dots, at most 203
    characters, whether the reply was cut or not. *)
Theorem run_success_effects now st query pm h cap logs reply :
  let w := {| confidant_project := pm;
              conversation_manager := {| history := h; max_history_length := cap |};
              logged := logs |} in
  let user := {| role := "user"; content := query |} in
  let assistant := {| role := "assistant"; content := reply |} in
  1 <= cap ->
  Z.of_nat (List.length h) <= cap ->
  ask_provider messages_create (context_of pm now)
    (skipn (List.length h + 1 - Z.to_nat cap) (h ++ [user])) = Ok reply ->
  fst (dev_run now st query w) = reply /\
  history (conversation_manager (snd (dev_run now st query w)))
  = skipn (List.length h + 2 - Z.to_nat cap) (h ++ [user; assistant]) /\
  (exists record,
     In (new_id Meeting st ++ ".json", Ok record)
        (meetings_dir (confidant_project (snd (dev_run now st query w)))) /\
     getitem record "key_discussions" = Ok (VList [VStr query]) /\
     getitem record "action_items" = Ok (VList [VStr (take 200 reply ++ "...")])) /\
  (String.length (take 200 reply ++ "...") <= 203)%nat /\
  ((String.length reply <= 200)%nat -> take 200 reply ++ "..." = reply ++ "...").
Proof.
  intros w user assistant Hcap Hh Hask.
  pose proof (add_messages_spec cap [user; assistant] Hcap h Hh) as Hboth.
  pose proof (add_messages_spec cap [user] Hcap h Hh) as Hone.
  cbn [add_messages role content user assistant] in Hboth, Hone.
  destruct (add_message {| history := h; max_history_length := cap |} "user" query)
    as [cm1 | e] eqn:Hadd; [| discriminate].
  cbn [bind] in Hboth, Hone. injection Hone as Hcm1.
  assert (Hmsgs : get_context_messages cm1
                  = skipn (List.length h + 1 - Z.to_nat cap) (h ++ [user])).
  { rewrite get_context_messages_history, Hcm1. cbn [history].
    now rewrite length_app. }
  rewrite <- Hmsgs in Hask.
  destruct (run_success now st query pm _ logs cm1 reply Hadd Hask)
    as (cm2 & Hadd2 & Hfst & Hcm & Hpm).
  fold w in Hfst, Hcm, Hpm. rewrite Hadd2 in Hboth. cbn [bind] in Hboth.
  injection Hboth as Hcm2.
  split; [exact Hfst |]. split.
  { rewrite Hcm, Hcm2. cbn [history]. now rewrite length_app. }
  split.
  { rewrite Hpm. unfold log_meeting, session_details.
    destruct (log_record_of Meeting st _ pm) as [outcome pm'] eqn:Hlog.
    destruct (log_dirs _ _ _ _ _ _ Hlog) as (Hd & _ & _). cbn [snd].
    eexists. split.
    - change (meetings_dir pm') with (dir_of Meeting pm'). rewrite Hd.
      apply write_json_in.
    - split; reflexivity. }
  split.
  { rewrite length_append. pose proof (length_take 200 reply). simpl. lia. }
  intros Hshort. now rewrite take_short.
Qed.

End AssistantMore.

Section Feedback.

Variable fromisoformat : string -> result datetime.
Variable messages_create : string -> list turn -> result (list content_block).

(** X18: what the user asks comes back as project context.  After a turn
    of [DevAssistant.run] that got a reply, every context generated
    within thirty days of the meeting's stamped date holds the line
    [- <date>: <query>] among its meetings, so the query text is sent to
    the provider again inside the system prompt of the turns that
    follow. *)
Theorem query_in_next_context now st query w cm1 reply now' s text d :
  add_message (conversation_manager w) "user" query = Ok cm1 ->
  ask_provider messages_create
    (fst (get_recent_context fromisoformat (confidant_project w) now 30))
    (get_context_messages cm1) = Ok reply ->
  generate_project_summary fromisoformat
    (confidant_project (snd (run fromisoformat messages_create now st query w)))
    now' 30 = Ok s ->
  format_context s 30 = Ok text ->
  fromisoformat (date_iso st) = Ok d ->
  now' - 30 * day_us < ticks d ->
  fst (get_recent_context fromisoformat
         (confidant_project (snd (run fromisoformat messages_create now st query w)))
         now' 30) = text /\
  is_substring ("- " ++ date_iso st ++ ": " ++ query ++ nl) text = true.
Proof.
  intros Hadd Hask Hs Hf Hd Hlt.
  destruct w as [pm cm logs]. cbn [conversation_manager confidant_project] in *.
  destruct (run_success fromisoformat messages_create now st query pm cm logs cm1
              reply Hadd Hask) as (cm2 & _ & _ & _ & Hpm).
  rewrite Hpm in *. split.
  - unfold get_recent_context. rewrite Hs. cbn [bind]. now rewrite Hf.
  - unfold log_meeting, session_details in Hs.
    apply (written_record_scanned fromisoformat Meeting st _ pm now' 30 s d Hs Hd)
      in Hlt.
    unfold format_context in Hf. cbv zeta in Hf. bind_inv Hf.
    destruct (add_lines_contains meeting_line _ _ Hlt _ _ Hx) as (l & Hl & Hsub).
    injection Hl as <-.
    bind_inv Hf.
    destruct (add_lines_ok _ _ _ _ Hx0) as (rs & _ & ->).
    destruct (add_lines_ok _ _ _ _ Hf) as (ls & _ & ->).
    do 4 apply is_substring_app_l. exact Hsub.
Qed.

(** X19: [ProjectAssistant.run] never touches the conversation buffer,
    and it writes to the project store only when the query, lower-cased,
    holds one of its keywords: then, given a reply, a meeting record with
    the query and the whole reply is written; without a keyword the store
    is left as it was. *)
Theorem project_assistant_gate now st query project_context w :
  conversation_manager
    (snd (ProjectAssistant.run fromisoformat messages_create now st query
            project_context w))
  = conversation_manager w /\
  (ProjectAssistant.mentions_project_management query = false ->
   confidant_project
     (snd (ProjectAssistant.run fromisoformat messages_create now st query
             project_context w))
   = confidant_project w) /\
  (forall s reply,
     ProjectAssistant.mentions_project_management query = true ->
     generate_project_summary fromisoformat (confidant_project w) now 30 = Ok s ->
     (response <- messages_create
                    (ProjectAssistant.generate_system_prompt
                       (ProjectAssistant.full_context s project_context))
                    [{| role := "user"; content := query |}] ;;
      first_text response) = Ok reply ->
     fst (ProjectAssistant.run fromisoformat messages_create now st query
            project_context w) = reply /\
     exists record,
       In (new_id Meeting st ++ ".json", Ok record)
          (meetings_dir
             (confidant_project
                (snd (ProjectAssistant.run fromisoformat messages_create now st
                        query project_context w)))) /\
       getitem record "key_discussions" = Ok (VList [VStr query]) /\
       getitem record "action_items" = Ok (VList [VStr reply])).
Proof.
  unfold ProjectAssistant.run, ProjectAssistant._log_project_interaction.
  destruct (generate_project_summary fromisoformat (confidant_project w) now 30)
    as [s | e].
  - destruct (response <- messages_create _ _ ;; first_text response)
      as [reply | e] eqn:Hask.
    + destruct (ProjectAssistant.mentions_project_management query) eqn:Hm.
      * unfold log_meeting, ProjectAssistant.interaction_details.
        destruct (log_record_of Meeting st _ (confidant_project w))
          as [outcome pm'] eqn:Hlog.
        destruct (log_dirs _ _ _ _ _ _ Hlog) as (Hd & _ & _).
        assert (Hin : exists record,
                  In (new_id Meeting st ++ ".json", Ok record) (meetings_dir pm') /\
                  getitem record "key_discussions" = Ok (VList [VStr query]) /\
                  getitem record "action_items" = Ok (VList [VStr reply])).
        { eexists. split.
          - change (meetings_dir pm') with (dir_of Meeting pm'). rewrite Hd.
            apply write_json_in.
          - split; reflexivity. }
        destruct outcome; (split; [reflexivity |]); (split; [discriminate |]);
          intros s' reply' _ [= <-] H; rewrite Hask in H; injection H as <-;
          (split; [reflexivity | exact Hin]).
      * split; [reflexivity |]. split; [reflexivity |]. discriminate.
    + split; [reflexivity |]. split; [reflexivity |].
      intros s' reply' _ [= <-] H. rewrite Hask in H. discriminate.
  - split; [reflexivity |]. split; [reflexivity |]. discriminate.
Qed.

(** X20: unlike [DevAssistant.run], [ProjectAssistant.run] answers with
    an error text when the scan fails: one scanned record file that does
    not decode and the caller gets [An error occurred: ...] from every
    query, whatever the provider would have said, and nothing is
    written. *)
Theorem project_assistant_scan_failure now st query project_context w k name e :
  In (name, Raise e) (dir_of k (confidant_project w)) ->
  scanned k name = true ->
  exists e',
    ProjectAssistant.run fromisoformat messages_create now st query project_context w
    = ("An error occurred: " ++ exn_str e',
       {| confidant_project := confidant_project w;
          conversation_manager := conversation_manager w;
          logged := emit (logged w) ERROR
                      ("Error in project assistant interaction: " ++ exn_str e') |}).
Proof.
  intros Hin Hk.
  destruct (generate_raises fromisoformat (confidant_project w) now 30 k name e Hin Hk)
    as [e' He'].
  exists e'. unfold ProjectAssistant.run. now rewrite He'.
Qed.

End Feedback.

(** ** Exported reports *)

Lemma write_json_names name content dir :
  map fst (write_json name content dir)
  = if existsb (String.eqb name) (map fst dir) then map fst dir
    else (map fst dir ++ [name])%list.
Proof.
  induction dir as [| [n c] rest IH]; simpl; [reflexivity |].
  destruct (String.eqb name n); simpl; [reflexivity |].
  rewrite IH. now destruct (existsb _ _).
Qed.

Lemma write_json_again name c1 c2 dir :
  write_json name c2 (write_json name c1 dir) = write_json name c2 dir.
Proof.
  induction dir as [| [n c] rest IH]; simpl.
  - now rewrite String.eqb_refl.
  - destruct (String.eqb name n) eqn:E; simpl; rewrite E; [reflexivity |].
    now rewrite IH.
Qed.

Lemma write_json_length_again name c1 c2 dir :
  List.length (write_json name c2 (write_json name c1 dir))
  = List.length (write_json name c1 dir).
Proof.
  rewrite write_json_again.
  induction dir as [| [n c] rest IH]; simpl; [reflexivity |].
  destruct (String.eqb name n); simpl; [reflexivity | now rewrite IH].
Qed.

Lemma write_json_unique name content dir c :
  NoDup (map fst dir) ->
  In (name, c) (write_json name content dir) -> c = Ok content.
Proof.
  induction dir as [| [n c0] rest IH]; simpl; intros Hnd Hin.
  - destruct Hin as [[= <-] | []]. reflexivity.
  - inversion Hnd as [| ? ? Hnot Hnd']; subst.
    destruct (String.eqb_spec name n) as [-> | Hne].
    + destruct Hin as [[= <-] | Hin]; [reflexivity |].
      destruct Hnot. now apply (in_map fst) in Hin.
    + destruct Hin as [[= -> _] | Hin]; [contradiction | auto].
Qed.

Section ExportMore.

Variable fromisoformat : string -> result datetime.
Variable os_path_join : string -> string -> string.

Abbreviation export := (export_project_report fromisoformat os_path_join).

(** X21: report files are named by the clock second alone.  Two exports
    stamped with the same second return the same path and leave a single
    report under it, holding the later Summary; the earlier report is
    overwritten.  An export whose scan raises writes nothing. *)
Theorem export_same_second_overwrites
    pm1 pm2 reports_path reports now1 now2 stamp days1 days2 s1 s2 :
  generate_project_summary fromisoformat pm1 now1 days1 = Ok s1 ->
  generate_project_summary fromisoformat pm2 now2 days2 = Ok s2 ->
  NoDup (map fst reports) ->
  let first := export pm1 reports_path reports now1 stamp days1 in
  let second := export pm2 reports_path (snd first) now2 stamp days2 in
  fst first = Ok (os_path_join reports_path ("project_report_" ++ stamp ++ ".json")) /\
  fst second = fst first /\
  In ("project_report_" ++ stamp ++ ".json", Ok (summary_value s1)) (snd first) /\
  List.length (snd second) = List.length (snd first) /\
  (forall content,
     In ("project_report_" ++ stamp ++ ".json", content) (snd second) ->
     content = Ok (summary_value s2)) /\
  (forall pm now days e,
     generate_project_summary fromisoformat pm now days = Raise e ->
     export pm reports_path reports now stamp days = (Raise e, reports)).
Proof.
  intros H1 H2 Hnd. cbv zeta. unfold export_project_report.
  rewrite H1. cbn [fst snd]. rewrite H2. cbn [fst snd].
  split; [reflexivity |]. split; [reflexivity |].
  split; [apply write_json_in |].
  split; [apply write_json_length_again |]. split.
  - intros content Hin. rewrite write_json_again in Hin.
    exact (write_json_unique _ _ _ _ Hnd Hin).
  - intros pm now days e He. now rewrite He.
Qed.

End ExportMore.

(** ** The further properties on the sample store *)

Lemma scan_ignores_unscanned_files_witness :
  generate_project_summary fromisoformat_written
    (set_dir Meeting
       ([("meeting_20240220_100000_ab12cd34.json", Ok recent_meeting)]
        ++ ("notes.txt", Raise json_error)
        :: [("meeting_20240131_120000_0f0f0f0f.json", Ok boundary_meeting)])%list
       sample_pm) sample_now 30
  = generate_project_summary fromisoformat_written
      (set_dir Meeting
         ([("meeting_20240220_100000_ab12cd34.json", Ok recent_meeting)]
          ++ [("meeting_20240131_120000_0f0f0f0f.json", Ok boundary_meeting)])%list
         sample_pm) sample_now 30.
Proof.
  apply (scan_ignores_unscanned_files fromisoformat_written sample_pm sample_now 30
           Meeting "notes.txt" (Raise json_error)).
  reflexivity.
Defined.

Lemma scan_lists_in_directory_order_witness :
  records_of Requirement sample_summary
  = flat_map (fun f => match snd f with
                       | Ok record =>
                           if scanned Requirement (fst f)
                              && later_than fromisoformat_written
                                   (naive (sample_now - 30 * day_us)) record
                           then [record] else []
                       | Raise _ => []
                       end) (dir_of Requirement sample_pm).
Proof.
  apply (scan_lists_in_directory_order fromisoformat_written sample_pm sample_now 30).
  vm_compute. reflexivity.
Defined.

Lemma log_then_scan_witness :
  In (written_record Meeting sample_stamp (entries_of sample_details))
     (records_of Meeting
        {| summary_project_name := "Confidant"; summary_period := "Last 30 days";
           meetings := [recent_meeting;
                        written_record Meeting sample_stamp (entries_of sample_details)];
           requirement_changes := [encryption_requirement; offline_requirement];
           milestones := [design_milestone] |}).
Proof.
  apply (log_then_scan fromisoformat_written Meeting sample_stamp
           (entries_of sample_details) sample_pm sample_now 30 _
           (naive 63844891200123456)).
  - vm_compute. reflexivity.
  - vm_compute. reflexivity.
  - vm_compute. reflexivity.
Defined.

Lemma log_preserves_files_witness :
  In ("meeting_20240220_100000_ab12cd34.json", Ok recent_meeting)
     (dir_of Meeting (snd (log_record_of Meeting sample_stamp sample_details sample_pm))).
Proof.
  apply (log_preserves_files Meeting sample_stamp sample_details sample_pm Meeting).
  - simpl. auto.
  - right. vm_compute. discriminate.
Defined.

Lemma log_index_append_witness :
  exists index index',
    project_metadata sample_pm = Some (Ok (VDict index)) /\
    project_metadata (snd (log_milestone sample_stamp sample_details sample_pm))
    = Some (Ok (VDict index')) /\
    assoc "milestones" index'
    = Some (VList (match assoc "milestones" index with
                   | Some (VList items) => items
                   | _ => []
                   end ++ [VStr (new_id Milestone sample_stamp)])) /\
    assoc "last_updated" index' = Some (VStr (last_updated_iso sample_stamp)) /\
    forall key, key <> "milestones" -> key <> "last_updated" ->
                assoc key index' = assoc key index.
Proof.
  apply (log_index_append Milestone sample_stamp sample_details sample_pm VNone).
  reflexivity.
Defined.

Lemma log_stops_at_index_witness :
  log_meeting sample_stamp sample_details (set_metadata (Raise json_error) sample_pm)
  = (Raise json_error,
     set_dir Meeting
       (write_json (new_id Meeting sample_stamp ++ ".json")
          (written_record Meeting sample_stamp
             [("participants", VList [VStr "Project Lead"; VStr "Developer"]);
              ("key_discussions", VList [VStr "Memory storage architecture"])])
          (meetings_dir sample_pm))
       (set_metadata (Raise json_error) sample_pm)) /\
  (exists e, log_meeting sample_stamp (VStr "notes") sample_pm = (Raise e, sample_pm)).
Proof.
  split.
  - apply (proj2 (log_stops_at_index Meeting sample_stamp sample_details
                    (set_metadata (Raise json_error) sample_pm))
             _ json_error eq_refl).
    right. left. reflexivity.
  - apply (proj1 (log_stops_at_index Meeting sample_stamp (VStr "notes") sample_pm)).
    discriminate.
Defined.

Lemma init_idempotent_witness :
  ProjectManager_init "2024-03-02T09:00:00" "2024-03-02T09:00:00.000100"
    sample_stamp sample_stamp_2 sample_stamp_3
    (fst (ProjectManager_init "2024-03-01T12:00:00" "2024-03-01T12:00:00.000100"
            sample_stamp sample_stamp_2 sample_stamp_3 broken_index_disk))
  = (fst (ProjectManager_init "2024-03-01T12:00:00" "2024-03-01T12:00:00.000100"
            sample_stamp sample_stamp_2 sample_stamp_3 broken_index_disk), []).
Proof.
  apply (init_idempotent "2024-03-01T12:00:00" "2024-03-01T12:00:00.000100"
           sample_stamp sample_stamp_2 sample_stamp_3
           "2024-03-02T09:00:00" "2024-03-02T09:00:00.000100"
           sample_stamp sample_stamp_2 sample_stamp_3 broken_index_disk).
  reflexivity.
Defined.

Lemma category_narrowing_witness :
  incl [encryption_requirement] [encryption_requirement; offline_requirement].
Proof.
  apply (category_narrowing fromisoformat_written sample_pm sample_now
           "E" "end-to-end ENCRYPTION" "requirement_changes").
  - reflexivity.
  - vm_compute. reflexivity.
  - vm_compute. reflexivity.
Defined.

Lemma category_matches_everything_witness :
  lookup (summary_key Requirement)
    (fst (get_category_summary fromisoformat_written sample_pm sample_now "date"))
  = Some (records_of Requirement sample_summary).
Proof.
  apply (category_matches_everything fromisoformat_written sample_pm sample_now
           sample_summary "date" Requirement).
  - vm_compute. reflexivity.
  - now right.
Defined.

Lemma context_lines_witness :
  exists meeting_lines change_lines milestone_lines,
    Forall2 (fun r l => meeting_line r = Ok l) (meetings sample_summary)
      meeting_lines /\
    Forall2 (fun r l => req_change_line r = Ok l) (requirement_changes sample_summary)
      change_lines /\
    Forall2 (fun r l => milestone_line r = Ok l) (milestones sample_summary)
      milestone_lines /\
    fst (get_recent_context fromisoformat_written sample_pm sample_now 30) =
      "Recent Project Context (Last " ++ str_int 30 ++ " days):" ++ nl ++ nl
      ++ "Meetings:" ++ nl
      ++ fold_right append EmptyString meeting_lines
      ++ nl ++ "Requirement Changes:" ++ nl
      ++ fold_right append EmptyString change_lines
      ++ nl ++ "Milestones:" ++ nl
      ++ fold_right append EmptyString milestone_lines.
Proof.
  exact (proj2 (context_lines fromisoformat_written sample_pm sample_now 30
                  sample_summary
                  (fst (get_recent_context fromisoformat_written sample_pm sample_now 30))
                  sample_scan eq_refl)).
Defined.

Lemma context_spoiled_by_one_field_witness :
  exists e',
    get_recent_context fromisoformat_written spoiled_pm sample_now 30
    = ("Unable to generate project context. Error: " ++ exn_str e',
       [(ERROR, "Error generating recent context: " ++ exn_str e')]).
Proof.
  apply (context_spoiled_by_one_field fromisoformat_written spoiled_pm sample_now 30
           {| summary_project_name := "Confidant"; summary_period := "Last 30 days";
              meetings :=
                [recent_meeting;
                 written_record Meeting sample_stamp [("key_discussions", VInt 5)]];
              requirement_changes := [encryption_requirement; offline_requirement];
              milestones := [design_milestone] |}
           Meeting "key_discussions"
           (entries_of (written_record Meeting sample_stamp [("key_discussions", VInt 5)]))
           (VInt 5) (Exn TypeError "can only join an iterable")).
  - vm_compute. reflexivity.
  - left. split; reflexivity.
  - simpl. auto.
  - reflexivity.
  - reflexivity.
Defined.

Lemma init_partial_bootstrap_witness :
  exists record,
    ProjectManager_init "2024-03-01T12:00:00.100000" "2024-03-01T12:00:00.100100"
      sample_stamp sample_stamp_2 sample_stamp_3 broken_index_disk
    = (set_dir Meeting [(new_id Meeting sample_stamp ++ ".json", Ok record)]
         broken_index_disk,
       [(ERROR, "Error initializing project context: " ++ exn_str json_error)]) /\
    getitem record "id" = Ok (VStr (new_id Meeting sample_stamp)).
Proof.
  apply (init_partial_bootstrap "2024-03-01T12:00:00.100000"
           "2024-03-01T12:00:00.100100" sample_stamp sample_stamp_2 sample_stamp_3
           broken_index_disk json_error); reflexivity.
Defined.

Lemma init_fresh_project_witness :
  exists s,
    generate_project_summary fromisoformat_written
      (fst (ProjectManager_init "2024-03-01T12:00:00.100000"
              "2024-03-01T12:00:00.100100" sample_stamp sample_stamp_2
              sample_stamp_3 fresh_disk))
      (sample_now + 60 * 1000000) 30 = Ok s /\
    meetings s = [written_record Meeting sample_stamp (entries_of seed_meeting)] /\
    requirement_changes s
    = [written_record Requirement sample_stamp_2 (entries_of seed_requirement)] /\
    milestones s
    = [written_record Milestone sample_stamp_3 (entries_of seed_milestone)].
Proof.
  apply (proj2 (proj2
           (init_fresh_project fromisoformat_written "2024-03-01T12:00:00.100000"
              "2024-03-01T12:00:00.100100" sample_stamp sample_stamp_2
              sample_stamp_3 fresh_disk (sample_now + 60 * 1000000) 30
              (naive (sample_now + 60 * 1000000 - 30 * day_us))
              63844891200123456 63844891201000250 63844891201004500
              eq_refl eq_refl eq_refl eq_refl eq_refl eq_refl
              eq_refl eq_refl eq_refl))).
Defined.

Lemma buffer_keeps_last_turns_witness :
  exists cm,
    add_messages (conversation_manager sample_world) twenty_one_turns = Ok cm /\
    max_history_length cm = 20 /\
    history cm
    = skipn (List.length (history (conversation_manager sample_world)
                          ++ twenty_one_turns) - Z.to_nat 20)
        (history (conversation_manager sample_world) ++ twenty_one_turns) /\
    Z.of_nat (List.length (history cm)) = 20.
Proof.
  apply (buffer_keeps_last_turns 20 (history (conversation_manager sample_world))
           twenty_one_turns); vm_compute; discriminate.
Defined.

Lemma run_success_effects_witness :
  fst (run fromisoformat_written replying_provider sample_now sample_stamp
         "Where do we keep the key?" sample_world)
  = "Keep the key in the local store." /\
  history (conversation_manager
             (snd (run fromisoformat_written replying_provider sample_now sample_stamp
                     "Where do we keep the key?" sample_world)))
  = [{| role := "user"; content := "Hello" |};
     {| role := "assistant"; content := "Hi, how can I help?" |};
     {| role := "user"; content := "Where do we keep the key?" |};
     {| role := "assistant"; content := "Keep the key in the local store." |}].
Proof.
  destruct (run_success_effects fromisoformat_written replying_provider sample_now
              sample_stamp "Where do we keep the key?" sample_pm
              (history (conversation_manager sample_world)) 20 []
              "Keep the key in the local store."
              ltac:(lia) ltac:(simpl; lia) eq_refl) as (H1 & H2 & _).
  split; [exact H1 | exact H2].
Defined.

Lemma query_in_next_context_witness :
  is_substring
    ("- " ++ date_iso sample_stamp ++ ": " ++ "Where do we keep the key?" ++ nl)
    (fst (get_recent_context fromisoformat_written
            (confidant_project
               (snd (run fromisoformat_written replying_provider sample_now
                       sample_stamp "Where do we keep the key?" sample_world)))
            (sample_now + 60 * 1000000) 30))
  = true.
Proof.
  destruct (query_in_next_context fromisoformat_written replying_provider sample_now
              sample_stamp "Where do we keep the key?" sample_world
              {| history :=
                   [{| role := "user"; content := "Hello" |};
                    {| role := "assistant"; content := "Hi, how can I help?" |};
                    {| role := "user"; content := "Where do we keep the key?" |}];
                 max_history_length := 20 |}
              "Keep the key in the local store." (sample_now + 60 * 1000000)
              {| summary_project_name := "Confidant";
                 summary_period := "Last 30 days";
                 meetings :=
                   [recent_meeting;
                    written_record Meeting sample_stamp
                      (entries_of (session_details "Where do we keep the key?"
                                     "Keep the key in the local store."))];
                 requirement_changes := [encryption_requirement; offline_requirement];
                 milestones := [design_milestone] |}
              (fst (get_recent_context fromisoformat_written
                      (confidant_project
                         (snd (run fromisoformat_written replying_provider sample_now
                                 sample_stamp "Where do we keep the key?"
                                 sample_world)))
                      (sample_now + 60 * 1000000) 30))
              (naive 63844891200123456)
              eq_refl eq_refl eq_refl eq_refl eq_refl eq_refl) as [_ H].
  exact H.
Defined.

Lemma project_assistant_scan_failure_witness :
  exists e',
    ProjectAssistant.run fromisoformat_written replying_provider sample_now
      sample_stamp "What is the next milestone?" EmptyString corrupt_world
    = ("An error occurred: " ++ exn_str e',
       {| confidant_project := confidant_project corrupt_world;
          conversation_manager := conversation_manager corrupt_world;
          logged := emit (logged corrupt_world) ERROR
                      ("Error in project assistant interaction: " ++ exn_str e') |}).
Proof.
  apply (project_assistant_scan_failure fromisoformat_written replying_provider
           sample_now sample_stamp "What is the next milestone?" EmptyString
           corrupt_world Meeting "meeting_20240221_100000_baadf00d.json" json_error).
  - simpl. auto.
  - reflexivity.
Defined.

Lemma export_same_second_overwrites_witness :
  List.length
    (snd (export_project_report fromisoformat_written posix_join empty_pm
            ".project_management/reports"
            (snd (export_project_report fromisoformat_written posix_join sample_pm
                    ".project_management/reports" [] sample_now "20240301_120000" 30))
            sample_now "20240301_120000" 7))
  = 1%nat /\
  forall content,
    In ("project_report_20240301_120000.json", content)
       (snd (export_project_report fromisoformat_written posix_join empty_pm
               ".project_management/reports"
               (snd (export_project_report fromisoformat_written posix_join sample_pm
                       ".project_management/reports" [] sample_now
                       "20240301_120000" 30))
               sample_now "20240301_120000" 7)) ->
    content
    = Ok (summary_value
            {| summary_project_name := "Confidant"; summary_period := "Last 7 days";
               meetings := []; requirement_changes := []; milestones := [] |}).
Proof.
  destruct (export_same_second_overwrites fromisoformat_written posix_join
              sample_pm empty_pm ".project_management/reports" [] sample_now
              sample_now "20240301_120000" 30 7 sample_summary
              {| summary_project_name := "Confidant"; summary_period := "Last 7 days";
                 meetings := []; requirement_changes := []; milestones := [] |}
              eq_refl eq_refl (NoDup_nil _)) as (_ & _ & _ & Hlen & Hc & _).
  split; [exact Hlen | exact Hc].
Defined.

(** ** The index over a sequence of log operations *)

Lemma section_of_inj k k' : section_of k = section_of k' -> k = k'.
Proof. destruct k, k'; simpl; congruence. Qed.

Lemma same_kind_true k k' : same_kind k k' = true <-> k = k'.
Proof. destruct k, k'; simpl; split; congruence. Qed.

(** One completed log operation, seen from each section of the index. *)
Lemma log_step_listed k st entries pm index :
  project_metadata pm = Some (Ok (VDict index)) ->
  (forall k', section_usable k' index) ->
  exists index',
    project_metadata (snd (log_record_of k st (VDict entries) pm))
    = Some (Ok (VDict index')) /\
    (forall k', section_usable k' index') /\
    forall k',
      listed k' index'
      = (listed k' index
         ++ if same_kind k k' then [VStr (new_id k st)] else [])%list.
Proof.
  intros Hm Hu.
  destruct (log_completes k st entries pm index Hm (Hu k)) as [pm' Hlog].
  destruct (log_index_step k st (VDict entries) pm VNone pm' Hlog)
    as (index0 & index' & Hm0 & Hm' & Hs & _ & Ho).
  rewrite Hm in Hm0. injection Hm0 as <-.
  rewrite Hlog. cbn [snd]. exists index'. split; [exact Hm' |].
  assert (Hother : forall k', k' <> k ->
                     assoc (section_of k') index' = assoc (section_of k') index).
  { intros k' Hne. apply Ho.
    - intros E. apply Hne. now apply section_of_inj.
    - apply section_not_last_updated. }
  split.
  - intros k'. unfold section_usable.
    destruct (same_kind k k') eqn:E.
    + apply same_kind_true in E as <-. right. eauto.
    + rewrite Hother; [apply Hu |]. intros ->.
      assert (same_kind k k = true) by now apply same_kind_true. congruence.
  - intros k'. unfold listed. destruct (same_kind k k') eqn:E.
    + apply same_kind_true in E as <-. now rewrite Hs.
    + rewrite Hother; [now rewrite app_nil_r |]. intros ->.
      assert (same_kind k k = true) by now apply same_kind_true. congruence.
Qed.

(** X22: with an index that decodes to a dict whose sections are lists or
    missing, any sequence of log operations with dict details keeps the
    index complete: afterwards each section lists what it listed before
    followed by the identifiers of the operations of its kind, in the
    order they were made. *)
Theorem index_lists_all_logged ops :
  forall pm index,
    project_metadata pm = Some (Ok (VDict index)) ->
    (forall k, section_usable k index) ->
    (forall op, In op ops -> exists entries, snd op = VDict entries) ->
    exists index',
      project_metadata (log_each ops pm) = Some (Ok (VDict index')) /\
      forall k,
        listed k index'
        = (listed k index
           ++ map (fun op => VStr (new_id k (snd (fst op))))
                (filter (fun op => same_kind (fst (fst op)) k) ops))%list.
Proof.
  induction ops as [| [[k st] details] rest IH]; intros pm index Hm Hu Hd.
  - exists index. split; [exact Hm |]. intros k. now rewrite app_nil_r.
  - destruct (Hd (k, st, details) (or_introl eq_refl)) as [entries He].
    cbn [snd] in He. subst details.
    destruct (log_step_listed k st entries pm index Hm Hu) as (index1 & Hm1 & Hu1 & Hl1).
    destruct (IH _ index1 Hm1 Hu1) as (index' & Hm' & Hl').
    { intros op Hin. apply Hd. now right. }
    exists index'. split; [exact Hm' |]. intros k'.
    rewrite Hl', Hl1. cbn [filter fst snd].
    destruct (same_kind k k') eqn:E.
    + apply same_kind_true in E as <-. now rewrite <- app_assoc.
    + now rewrite app_nil_r.
Qed.

(** ** When the context is generated *)

Lemma add_lines_total line items :
  (forall item, In item items -> exists l, line item = Ok l) ->
  forall context, exists text, add_lines line items context = Ok text.
Proof.
  induction items as [| i rest IH]; simpl; intros H context; [eauto |].
  destruct (H i (or_introl eq_refl)) as [l ->]. simpl.
  apply IH. intros item Hin. apply H. now right.
Qed.

Lemma milestone_line_dict entries : exists l, milestone_line (VDict entries) = Ok l.
Proof. unfold milestone_line. simpl. eauto. Qed.

Section ContextGenerated.

Variable fromisoformat : string -> result datetime.

Lemma summary_records_are_dicts pm now days s k r :
  generate_project_summary fromisoformat pm now days = Ok s ->
  In r (records_of k s) -> exists entries, r = VDict entries.
Proof.
  intros H Hin.
  apply (in_summary fromisoformat _ _ _ _ k r H) in Hin as (name & d & _ & _ & Hd & _).
  unfold record_date in Hd. bind_inv Hd.
  destruct r; try discriminate. eauto.
Qed.

(** X23: the context is generated, with nothing logged, whenever the scan
    returns and the list fields can be joined: every [key_discussions] of
    a meeting and every [changes] of a requirement change in the window
    is, when present, a value [', '.join] accepts.  Milestones put no
    condition: any [name] and [status] are printed. *)
Theorem context_generated pm now days s :
  generate_project_summary fromisoformat pm now days = Ok s ->
  (forall entries v,
     In (VDict entries) (meetings s) ->
     assoc "key_discussions" entries = Some v ->
     exists joined, py_join ", " v = Ok joined) ->
  (forall entries v,
     In (VDict entries) (requirement_changes s) ->
     assoc "changes" entries = Some v ->
     exists joined, py_join ", " v = Ok joined) ->
  exists text,
    format_context s days = Ok text /\
    get_recent_context fromisoformat pm now days = (text, []).
Proof.
  intros H Hm Hr.
  assert (exists text, format_context s days = Ok text) as [text Hf].
  { unfold format_context. cbv zeta.
    destruct (add_lines_total meeting_line (meetings s)) with
      (context := ("Recent Project Context (Last " ++ str_int days ++ " days):"
                   ++ nl ++ nl) ++ "Meetings:" ++ nl) as [t1 ->].
    { intros m Hin.
      destruct (summary_records_are_dicts pm now days s Meeting m H Hin)
        as [entries ->].
      unfold meeting_line. simpl.
      destruct (assoc "key_discussions" entries) as [v |] eqn:Ha.
      - destruct (Hm entries v Hin Ha) as [joined ->]. simpl. eauto.
      - simpl. eauto. }
    cbn [bind].
    destruct (add_lines_total req_change_line (requirement_changes s)) with
      (context := t1 ++ nl ++ "Requirement Changes:" ++ nl) as [t2 ->].
    { intros m Hin.
      destruct (summary_records_are_dicts pm now days s Requirement m H Hin)
        as [entries ->].
      unfold req_change_line. simpl.
      destruct (assoc "changes" entries) as [v |] eqn:Ha.
      - destruct (Hr entries v Hin Ha) as [joined ->]. simpl. eauto.
      - simpl. eauto. }
    cbn [bind].
    apply add_lines_total. intros m Hin.
    destruct (summary_records_are_dicts pm now days s Milestone m H Hin)
      as [entries ->].
    apply milestone_line_dict. }
  exists text. split; [exact Hf |].
  unfold get_recent_context. rewrite H. cbn [bind]. now rewrite Hf.
Qed.

End ContextGenerated.

Lemma context_generated_witness :
  exists text,
    format_context sample_summary 30 = Ok text /\
    get_recent_context fromisoformat_written sample_pm sample_now 30 = (text, []).
Proof.
  apply (context_generated fromisoformat_written sample_pm sample_now 30
           sample_summary sample_scan).
  - intros entries v [E | []] Ha. injection E as <-. injection Ha as <-.
    eexists. reflexivity.
  - intros entries v [E | [E | []]] Ha; injection E as <-; injection Ha as <-;
      eexists; reflexivity.
Defined.

Lemma index_lists_all_logged_witness :
  exists index',
    project_metadata
      (log_each [(Meeting, sample_stamp, sample_details);
                 (Milestone, sample_stamp_2, seed_milestone);
                 (Meeting, sample_stamp_3, seed_meeting)] sample_pm)
    = Some (Ok (VDict index')) /\
    forall k,
      listed k index'
      = (listed k (entries_of sample_metadata)
         ++ map (fun op => VStr (new_id k (snd (fst op))))
              (filter (fun op => same_kind (fst (fst op)) k)
                 [(Meeting, sample_stamp, sample_details);
                  (Milestone, sample_stamp_2, seed_milestone);
                  (Meeting, sample_stamp_3, seed_meeting)]))%list.
Proof.
  apply (index_lists_all_logged
           [(Meeting, sample_stamp, sample_details);
            (Milestone, sample_stamp_2, seed_milestone);
            (Meeting, sample_stamp_3, seed_meeting)] sample_pm
           (entries_of sample_metadata) eq_refl).
  - intros []; [left; reflexivity | left; reflexivity | right; eexists; reflexivity].
  - intros op [<- | [<- | [<- | []]]]; eexists; reflexivity.
Defined.
